(** * vitest-discord-reporter: the aggregation and formatting pipeline

    A shallow embedding of [src/reporter.ts] (class [DiscordReporter]) and
    the properties its specification states about it.

    Conventions of the embedding.
    - A JavaScript string is the list of its UTF-16 code units, so that
      [length] is [String.prototype.length] and [firstn n] is
      [substring(0, n)].
    - The counters of [calculateStats] and array lengths are natural numbers
      ([N]); a JavaScript number represents them exactly up to [2^53].
    - Closures that push onto a captured array or bump captured counters are
      written in state-passing style: the captured variable is an explicit
      argument and result, and [Array.prototype.forEach] threads it through
      the elements from left to right. *)

From Stdlib Require Import List ZArith NArith Lia Bool String Ascii Permutation.
Import ListNotations.

Set Implicit Arguments.
Set Warnings "-register-all".

(** ** The parts of the JavaScript runtime the reporter relies on *)

Module JS.

(** A string value: its sequence of UTF-16 code units. *)
Definition jsstring : Type := list N.

(** An ASCII literal of the source, as code units. *)
Definition lit (s : string) : jsstring :=
  map N_of_ascii (list_ascii_of_string s).

(** [s.length] *)
Definition strlen (s : jsstring) : nat := List.length s.

(** [s.substring(0, n)] *)
Definition substring0 (s : jsstring) (n : nat) : jsstring := firstn n s.

(** Truthiness of a string: only the empty string is falsy. *)
Definition truthy (s : jsstring) : bool :=
  match s with [] => false | _ :: _ => true end.

(** [a || b] on strings where [a] may be [undefined]. *)
Definition or_else (a : option jsstring) (b : jsstring) : jsstring :=
  match a with
  | Some s => if truthy s then s else b
  | None => b
  end.

(** [l.join(sep)] *)
Fixpoint join (sep : jsstring) (l : list jsstring) : jsstring :=
  match l with
  | [] => []
  | x :: rest =>
      match rest with
      | [] => x
      | _ :: _ => x ++ sep ++ join sep rest
      end
  end.

(** [l.slice(0, n)] *)
Definition slice0 {A : Type} (l : list A) (n : nat) : list A := firstn n l.

(** [l.forEach(f)] where [f] updates a captured variable of type [S]. *)
Definition forEach {A S : Type} (l : list A) (f : A -> S -> S) (s : S) : S :=
  fold_left (fun acc a => f a acc) l s.

(** The code unit of a decimal digit. *)
Definition digit (d : N) : N := (48 + d)%N.

(** Decimal digits of [n], most significant first, in front of [acc];
    [fuel] bounds the number of digits produced. *)
Fixpoint digits_from (fuel : nat) (n : N) (acc : jsstring) : jsstring :=
  match fuel with
  | O => acc
  | S fuel' =>
      let acc' := digit (n mod 10) :: acc in
      if (n / 10 =? 0)%N then acc' else digits_from fuel' (n / 10)%N acc'
  end.

(** [n.toString()] for a non-negative integer [n] below [10^21]
    (the range in which JavaScript prints all the digits). A number has
    no more decimal digits than binary ones, which gives the fuel. *)
Definition toString (n : N) : jsstring :=
  digits_from (S (N.to_nat (N.log2 n))) n [].

(** The value a string of decimal digits denotes (used to state that
    [toString] is faithful). *)
Definition digits_value (s : jsstring) : N :=
  fold_left (fun v c => (10 * v + (c - 48))%N) s 0%N.

(** *** IEEE 754 binary64 division by 1000 and [toFixed(2)]

    [duration / 1000] is the double nearest to the quotient (ties to
    even). For an integer [d > 0] the result is [m / 2^k] with
    [2^52 <= m <= 2^53]; [quot1000 d] is the pair [(m, k)]. *)

(** Round to nearest, ties to even, of [p / q] for [q > 0]. *)
Definition round_nearest_even (p q : Z) : Z :=
  let f := (p / q)%Z in
  let r := (p mod q)%Z in
  if (2 * r <? q)%Z then f
  else if (q <? 2 * r)%Z then (f + 1)%Z
  else if Z.even f then f else (f + 1)%Z.

Definition quot1000 (d : Z) : Z * Z :=
  let k0 := (61 - Z.log2 d)%Z in
  let k := if (1000 * 2 ^ 52 <=? d * 2 ^ k0)%Z then k0 else (k0 + 1)%Z in
  (round_nearest_even (d * 2 ^ k) 1000, k).

(** [x.toFixed(2)] for [x = m / 2^k >= 0]: the integer [n] for which
    [n / 100 - x] is closest to zero, the larger one on a tie. *)
Definition fixed2_hundredths (mk : Z * Z) : Z :=
  let (m, k) := mk in ((200 * m + 2 ^ k) / 2 ^ (k + 1))%Z.

(** The hundredths printed by [(d / 1000).toFixed(2)] for [d >= 0]. *)
Definition hundredths (d : Z) : N :=
  if (d =? 0)%Z then 0%N else Z.to_N (fixed2_hundredths (quot1000 d)).

(** The digits of [n] hundredths with the point before the last two. *)
Definition print_fixed2 (n : N) : jsstring :=
  toString (n / 100) ++ lit "." ++ [digit (n / 10 mod 10); digit (n mod 10)].

(** [(d / 1000).toFixed(2)] for an integer number of milliseconds [d]
    with [|d| <= 2^53]. A negative quotient prints as ["-"] followed by
    the text of its absolute value. *)
Definition toFixed2_millis (d : Z) : jsstring :=
  (if (d <? 0)%Z then lit "-" else []) ++ print_fixed2 (hundredths (Z.abs d)).

End JS.

(** ** The result tree handed over by the test runner *)

Module Vitest.
Import JS.

(** [task.mode] *)
Inductive RunMode : Type := run | skip | only | todo | queued.

(** [task.result.state]: a run mode, or one of the two outcomes. *)
Inductive TaskState : Type := in_mode (m : RunMode) | pass | fail.

(** An element of [task.result.errors]. *)
Record TestError : Type := mkTestError {
  message : option jsstring;
  stack : option jsstring
}.

Record TaskResult : Type := mkTaskResult {
  state : TaskState;
  errors : option (list TestError)
}.

(** [task.type] *)
Inductive TaskType : Type := test | suite.

(** A node of the tree. The source tells the variants apart by the [type]
    tag and looks for children by the presence of a truthy [tasks] field,
    whatever the tag; the record keeps both as they are. *)
Inductive RunnerTask : Type := mkTask {
  type : TaskType;
  name : jsstring;
  mode : RunMode;
  result : option TaskResult;
  tasks : option (list RunnerTask)
}.

(** A test file: the fields of it the reporter reads. *)
Record RunnerTestFile : Type := mkFile {
  file_name : jsstring;
  file_tasks : option (list RunnerTask)
}.

(** [task.result?.state === s] *)
Definition state_is (r : option TaskResult) (s : TaskState) : bool :=
  match r with
  | Some res =>
      match state res, s with
      | pass, pass => true
      | fail, fail => true
      | _, _ => false
      end
  | None => false
  end.

Definition is_test (ty : TaskType) : bool :=
  match ty with test => true | suite => false end.

(** [task.mode === 'skip' || task.mode === 'todo'] *)
Definition skip_or_todo (m : RunMode) : bool :=
  match m with skip | todo => true | _ => false end.

End Vitest.

(** ** Discord embeds, as far as the reporter fills them in *)

Module Discord.
Import JS.

Record APIEmbedField : Type := mkField {
  field_name : jsstring;
  field_value : jsstring;
  inline : option bool
}.

Record APIEmbed : Type := mkEmbed {
  title : option jsstring;
  color : option N;
  description : option jsstring;
  fields : option (list APIEmbedField);
  footer : option jsstring;      (* [footer.text] *)
  timestamp : option jsstring
}.

(** The two colours of the source: [0xed4245] and [0x57f287]. *)
Definition red : N := 0xed4245.
Definition green : N := 0x57f287.

End Discord.

(** ** The reporter: [class DiscordReporter] *)

Module Reporter.
Import JS Vitest.

(** [DiscordReporterOptions]: what the user may pass to the constructor. *)
Record DiscordReporterOptions : Type := mkUserOptions {
  user_webhookUrl : option jsstring;
  user_title : option jsstring;
  user_includeStackTrace : option bool;
  user_mentionOnFailure : option jsstring;
  user_showPassedTests : option bool
}.

(** [Required<DiscordReporterOptions>]: the field [reporterOptions]. *)
Record Options : Type := mkOptions {
  webhookUrl : jsstring;
  title : jsstring;
  includeStackTrace : bool;
  mentionOnFailure : jsstring;
  showPassedTests : bool
}.

(** The record [calculateStats] returns. *)
Record Stats : Type := mkStats {
  passed : N;
  failed : N;
  skipped : N;
  total : N
}.

(** An element of the array [getFailedTests] returns. *)
Record FailedTest : Type := mkFailedTest {
  failed_name : jsstring;
  failed_error : jsstring
}.

(** The string literals of the source that are not plain ASCII. *)
Definition newline : jsstring := [10%N].
Definition check_button : jsstring := [0x2705%N].              (* U+2705 *)
Definition cross_mark : jsstring := [0x274c%N].                (* U+274C *)
Definition next_track : jsstring := [0x23ed%N; 0xfe0f%N].      (* U+23ED U+FE0F *)
Definition stopwatch : jsstring := [0x23f1%N; 0xfe0f%N].       (* U+23F1 U+FE0F *)
Definition bar_chart : jsstring := [0xd83d%N; 0xdcca%N].       (* U+1F4CA *)
Definition check_mark : jsstring := [0x2713%N].                (* U+2713 *)
Definition warning_sign : jsstring := [0x26a0%N; 0xfe0f%N].    (* U+26A0 U+FE0F *)

Definition passed_label : jsstring := check_button ++ lit " Passed".
Definition failed_label : jsstring := cross_mark ++ lit " Failed".
Definition skipped_label : jsstring := next_track ++ lit " Skipped".
Definition duration_label : jsstring := stopwatch ++ lit " Duration".
Definition total_label : jsstring := bar_chart ++ lit " Total".
Definition failed_title : jsstring := cross_mark ++ lit " Failed Tests".
Definition passed_title : jsstring := check_button ++ lit " Passed Tests".
Definition ellipsis : jsstring := lit "...".
Definition truncated_marker : jsstring := newline ++ lit "... (truncated)".
Definition fence : jsstring := lit "```".
Definition path_separator : jsstring := lit " > ".

(** [constructor(options?)] *)
Definition constructor (options : option DiscordReporterOptions) : Options :=
  {| webhookUrl :=
       or_else (match options with Some o => user_webhookUrl o | None => None end) [];
     title :=
       or_else (match options with Some o => user_title o | None => None end)
               (lit "Test Results");
     includeStackTrace :=
       match options with
       | Some o => match user_includeStackTrace o with Some b => b | None => false end
       | None => false
       end;
     mentionOnFailure :=
       or_else (match options with Some o => user_mentionOnFailure o | None => None end) [];
     showPassedTests :=
       match options with
       | Some o => match user_showPassedTests o with Some b => b | None => true end
       | None => true
       end |}.

(** [truncateStackTrace(stack, maxLength = 800)] *)
Definition truncateStackTrace (stack : jsstring) (maxLength : nat) : jsstring :=
  if strlen stack <=? maxLength then stack
  else substring0 stack maxLength ++ truncated_marker.

(** *** [calculateStats] *)

(** The closure [countTests]; the four captured counters are the state. *)
Fixpoint countTests (task : RunnerTask) (st : Stats) : Stats :=
  let st1 :=
    if is_test (type task) then
      let st0 := {| passed := passed st; failed := failed st;
                    skipped := skipped st; total := total st + 1 |} in
      if state_is (result task) pass then
        {| passed := passed st0 + 1; failed := failed st0;
           skipped := skipped st0; total := total st0 |}
      else if state_is (result task) fail then
        {| passed := passed st0; failed := failed st0 + 1;
           skipped := skipped st0; total := total st0 |}
      else if skip_or_todo (mode task) then
        {| passed := passed st0; failed := failed st0;
           skipped := skipped st0 + 1; total := total st0 |}
      else st0
    else st in
  match tasks task with
  | Some ts => forEach ts countTests st1
  | None => st1
  end.

Definition calculateStats (files : list RunnerTestFile) : Stats :=
  forEach files
    (fun file st =>
       match file_tasks file with
       | Some ts => forEach ts countTests st
       | None => st
       end)
    {| passed := 0; failed := 0; skipped := 0; total := 0 |}.

(** *** [getFailedTests] *)

(** [task.result.errors?.[0]] *)
Definition first_error (res : TaskResult) : option TestError :=
  match errors res with
  | Some (e :: _) => Some e
  | _ => None
  end.

(** The text pushed as [error] for a failed test with result [res]. *)
Definition error_text (opts : Options) (res : TaskResult) : jsstring :=
  let errorMessage :=
    or_else (match first_error res with Some e => message e | None => None end)
            (lit "Unknown error") in
  let stackTrace :=
    or_else (match first_error res with Some e => stack e | None => None end) [] in
  if includeStackTrace opts && truthy stackTrace then
    errorMessage ++ newline ++ fence ++ newline
      ++ truncateStackTrace stackTrace 800 ++ newline ++ fence
  else errorMessage.

(** The closure [collectFailed]; the captured array [failed] is the
    state. The guard [task.type === 'test' && task.result?.state === 'fail']
    holds only when [result] is present, which is where [res] comes from. *)
Fixpoint collectFailed (opts : Options) (task : RunnerTask)
         (path : list jsstring) (failed : list FailedTest) : list FailedTest :=
  let currentPath := path ++ [name task] in
  let failed1 :=
    if is_test (type task) && state_is (result task) fail then
      match result task with
      | Some res =>
          failed ++ [ {| failed_name := join path_separator currentPath;
                         failed_error := error_text opts res |} ]
      | None => failed
      end
    else failed in
  match tasks task with
  | Some ts => forEach ts (fun t => collectFailed opts t currentPath) failed1
  | None => failed1
  end.

Definition getFailedTests (opts : Options) (files : list RunnerTestFile)
  : list FailedTest :=
  forEach files
    (fun file failed =>
       match file_tasks file with
       | Some ts =>
           forEach ts (fun task => collectFailed opts task [file_name file]) failed
       | None => failed
       end)
    [].

(** *** [buildFailedTestsEmbed] *)

(** The conditional expressions that cut a field name, a field value and
    the passed-tests description (lines 200, 202 and 247 of the source). *)
Definition truncate_name (s : jsstring) : jsstring :=
  if 256 <? strlen s then substring0 s 253 ++ ellipsis else s.

Definition truncate_value (s : jsstring) : jsstring :=
  if 1024 <? strlen s then substring0 s 1021 ++ ellipsis else s.

Definition truncate_description (s : jsstring) : jsstring :=
  if 2048 <? strlen s then substring0 s 2045 ++ ellipsis else s.

Definition failed_field (t : FailedTest) : Discord.APIEmbedField :=
  {| Discord.field_name := truncate_name (failed_name t);
     Discord.field_value := truncate_value (failed_error t);
     Discord.inline := None |}.

Definition buildFailedTestsEmbed (failedTests : list FailedTest)
  : option Discord.APIEmbed :=
  if Nat.eqb (List.length failedTests) 0 then None
  else
    let fields := map failed_field (slice0 failedTests 10) in
    Some {| Discord.title := Some failed_title;
            Discord.color := Some Discord.red;
            Discord.fields := Some fields;
            Discord.description :=
              if 10 <? List.length failedTests then
                Some (lit "Showing 10 of "
                        ++ toString (N.of_nat (List.length failedTests))
                        ++ lit " failed tests")
              else None;
            Discord.footer := None;
            Discord.timestamp := None |}.

(** *** [buildPassedTestsEmbed] *)

(** The closure [collectPassed]; the captured array [passedTests] is the
    state. *)
Fixpoint collectPassed (task : RunnerTask) (path : list jsstring)
         (passedTests : list jsstring) : list jsstring :=
  let currentPath := path ++ [name task] in
  let passed1 :=
    if is_test (type task) && state_is (result task) pass then
      passedTests ++ [join path_separator currentPath]
    else passedTests in
  match tasks task with
  | Some ts => forEach ts (fun t => collectPassed t currentPath) passed1
  | None => passed1
  end.

(** The array [passedTests] once the files have been walked (the first
    half of [buildPassedTestsEmbed]). *)
Definition passedTests (files : list RunnerTestFile) : list jsstring :=
  forEach files
    (fun file acc =>
       match file_tasks file with
       | Some ts => forEach ts (fun task => collectPassed task [file_name file]) acc
       | None => acc
       end)
    [].

(** [passedTests.slice(0, 20).map(...).join('\n')] *)
Definition testList (passedTests : list jsstring) : jsstring :=
  join newline (map (fun t => check_mark ++ lit " " ++ t) (slice0 passedTests 20)).

Definition buildPassedTestsEmbed (files : list RunnerTestFile)
  : option Discord.APIEmbed :=
  let passedTests := passedTests files in
  if Nat.eqb (List.length passedTests) 0 then None
  else
    let description := truncate_description (testList passedTests) in
    Some {| Discord.title := Some passed_title;
            Discord.color := Some Discord.green;
            Discord.description :=
              Some (if truthy description then description
                    else lit "All tests passed!");
            Discord.fields := None;
            Discord.footer :=
              if 20 <? List.length passedTests then
                Some (lit "Showing 20 of "
                        ++ toString (N.of_nat (List.length passedTests))
                        ++ lit " passed tests")
              else None;
            Discord.timestamp := None |}.

(** *** [buildEmbeds] *)

Definition summary_field (label value : jsstring) : Discord.APIEmbedField :=
  {| Discord.field_name := label;
     Discord.field_value := value;
     Discord.inline := Some true |}.

(** The summary embed after the optional assignment of [description].
    [iso] is [new Date().toISOString()]. *)
Definition summaryEmbed (opts : Options) (stats : Stats) (duration : Z)
           (iso : jsstring) : Discord.APIEmbed :=
  {| Discord.title := Some (title opts);
     Discord.color :=
       Some (if (0 <? failed stats)%N then Discord.red else Discord.green);
     Discord.fields :=
       Some [ summary_field passed_label (toString (passed stats));
              summary_field failed_label (toString (failed stats));
              summary_field skipped_label (toString (skipped stats));
              summary_field duration_label (toFixed2_millis duration ++ lit "s");
              summary_field total_label (toString (total stats)) ];
     Discord.description :=
       if (0 <? failed stats)%N && truthy (mentionOnFailure opts)
       then Some (mentionOnFailure opts) else None;
     Discord.footer := None;
     Discord.timestamp := Some iso |}.

(** [embeds.push(e)] for an [e] that may be [null]. *)
Definition push_if_any (embeds : list Discord.APIEmbed)
           (e : option Discord.APIEmbed) : list Discord.APIEmbed :=
  match e with Some x => embeds ++ [x] | None => embeds end.

Definition buildEmbeds (opts : Options) (files : list RunnerTestFile)
           (duration : Z) (iso : jsstring) : list Discord.APIEmbed :=
  let stats := calculateStats files in
  let embeds0 := [summaryEmbed opts stats duration iso] in
  let failedTests := getFailedTests opts files in
  let embeds1 :=
    if 0 <? List.length failedTests
    then push_if_any embeds0 (buildFailedTestsEmbed failedTests)
    else embeds0 in
  if showPassedTests opts && (0 <? passed stats)%N
  then push_if_any embeds1 (buildPassedTestsEmbed files)
  else embeds1.

(** *** The lifecycle hooks

    The hooks act on the world: they read the clock, call the delivery
    function of [./discord] and write to the runner's logger. A
    computation is a function from the trace of actions so far to the
    extended trace and the way it ends; [Thrown] is a JavaScript
    exception (a rejected promise, once awaited). The methods of the
    logger are taken to return normally. *)

Section Lifecycle.

(** The values that can be thrown. *)
Variable Cause : Type.

(** The delivery function [sendDiscordMessage], defined outside this
    file: [None] when its promise resolves, [Some c] when it rejects
    with (or the call throws) [c]. *)
Variable sendDiscordMessage : jsstring -> list Discord.APIEmbed -> option Cause.

Inductive Event : Type :=
| Delivery (url : jsstring) (embeds : list Discord.APIEmbed)
| LoggerLog (msg : jsstring)
| LoggerWarn (msg : jsstring)
| LoggerError (msg : jsstring) (cause : Cause).

Inductive Completion (A : Type) : Type :=
| Returned (a : A)
| Thrown (c : Cause).

Definition Eff (A : Type) : Type := list Event -> list Event * Completion A.

Definition ret {A : Type} (a : A) : Eff A := fun tr => (tr, Returned a).

Definition bind {A B : Type} (m : Eff A) (k : A -> Eff B) : Eff B :=
  fun tr =>
    match m tr with
    | (tr', Returned a) => k a tr'
    | (tr', Thrown _ c) => (tr', Thrown _ c)
    end.

(** [try { body } catch (error) { handler }] *)
Definition try_catch {A : Type} (body : Eff A) (handler : Cause -> Eff A) : Eff A :=
  fun tr =>
    match body tr with
    | (tr', Returned a) => (tr', Returned a)
    | (tr', Thrown _ c) => handler c tr'
    end.

Notation "m ;; k" := (bind m (fun _ => k)) (at level 61, right associativity).

Definition emit (e : Event) : Eff unit := fun tr => (tr ++ [e], Returned tt).

(** [await sendDiscordMessage(url, embeds)] *)
Definition await_send (url : jsstring) (embeds : list Discord.APIEmbed) : Eff unit :=
  fun tr =>
    (tr ++ [Delivery url embeds],
     match sendDiscordMessage url embeds with
     | None => Returned tt
     | Some c => Thrown _ c
     end).

(** The part of the [Vitest] context the reporter reads:
    [ctx.state.getFiles()]. *)
Record VitestCtx : Type := mkCtx { getFiles : list RunnerTestFile }.

(** The instance once [onInit] has run ([ctx] is declared [ctx!] and
    assigned there). *)
Record DiscordReporter : Type := mkReporter {
  reporterOptions : Options;
  startTime : Z;
  ctx : VitestCtx
}.

(** [onInit(ctx)] on an instance whose options are [opts]; [env] is
    [process.env.VITE_DISCORD_REPORTER_WEBHOOK_URL] and [now] is
    [Date.now()]. *)
Definition onInit (opts : Options) (c : VitestCtx) (env : option jsstring)
           (now : Z) : DiscordReporter :=
  let opts' :=
    match env with
    | Some url =>
        if negb (truthy (webhookUrl opts)) && truthy url then
          {| webhookUrl := url; title := title opts;
             includeStackTrace := includeStackTrace opts;
             mentionOnFailure := mentionOnFailure opts;
             showPassedTests := showPassedTests opts |}
        else opts
    | None => opts
    end in
  {| reporterOptions := opts'; startTime := now; ctx := c |}.

Definition sent_message : jsstring :=
  check_button ++ lit " Discord notification sent".
Definition no_webhook_message : jsstring :=
  warning_sign ++ lit " Discord webhook URL not provided. Skipping notification.".
Definition send_failed_message : jsstring :=
  cross_mark ++ lit " Failed to send Discord notification:".

(** [onFinished(files?, _errors?)]; [now] is [Date.now()] and [iso] is
    [new Date().toISOString()] at the time of the call. *)
Definition onFinished (this : DiscordReporter)
           (files : option (list RunnerTestFile)) (now : Z) (iso : jsstring)
  : Eff unit :=
  let testFiles := match files with Some fs => fs | None => getFiles (ctx this) end in
  let duration := (now - startTime this)%Z in
  let embeds := buildEmbeds (reporterOptions this) testFiles duration iso in
  try_catch
    (if truthy (webhookUrl (reporterOptions this)) then
       await_send (webhookUrl (reporterOptions this)) embeds ;;
       emit (LoggerLog sent_message)
     else emit (LoggerWarn no_webhook_message))
    (fun error => emit (LoggerError send_failed_message error)).

(** A call of a hook, started with an empty trace. *)
Definition run_hook {A : Type} (m : Eff A) : list Event * Completion A := m [].

End Lifecycle.

Arguments Delivery {Cause} url embeds.
Arguments LoggerLog {Cause} msg.
Arguments LoggerWarn {Cause} msg.
Arguments LoggerError {Cause} msg cause.
Arguments Returned {Cause A} a.
Arguments Thrown {Cause A} c.

End Reporter.

(** ** The specification's reading of the tree

    The definitions of this module follow the words of the specification
    (sections 3 and 4), not the code: the pre-order enumeration of the
    nodes with their ancestry paths, and the classification of a node. *)

Module Spec.
Import JS Vitest.

(** The nodes below (and including) [t] in depth-first pre-order, each
    with its ancestry path; [path] is the path of the parent. *)
Fixpoint preorder (path : list jsstring) (t : RunnerTask)
  : list (list jsstring * RunnerTask) :=
  let here := path ++ [name t] in
  (here, t) ::
    match tasks t with
    | Some ts => flat_map (preorder here) ts
    | None => []
    end.

(** The nodes of a file list, files in array order, the file's name
    seeding the path. An absent [tasks] is an empty one. *)
Definition preorder_files (files : list RunnerTestFile)
  : list (list jsstring * RunnerTask) :=
  flat_map
    (fun f =>
       match file_tasks f with
       | Some ts => flat_map (preorder [file_name f]) ts
       | None => []
       end)
    files.

Inductive Bucket : Type := Passed | Failed | Skipped | Unclassified.

Definition Bucket_eqb (a b : Bucket) : bool :=
  match a, b with
  | Passed, Passed | Failed, Failed | Skipped, Skipped
  | Unclassified, Unclassified => true
  | _, _ => false
  end.

(** Section 4.1: a Suite is in no bucket; a Test is in exactly one, by
    priority. *)
Definition classify (t : RunnerTask) : option Bucket :=
  match type t with
  | suite => None
  | test =>
      Some (if state_is (result t) pass then Passed
            else if state_is (result t) fail then Failed
            else if skip_or_todo (mode t) then Skipped
            else Unclassified)
  end.

Definition in_bucket (b : Bucket) (t : RunnerTask) : bool :=
  match classify t with Some b' => Bucket_eqb b b' | None => false end.

(** How many of the nodes satisfy [p]. *)
Definition count (p : RunnerTask -> bool)
           (nodes : list (list jsstring * RunnerTask)) : N :=
  N.of_nat (List.length (filter (fun n => p (snd n)) nodes)).

(** A Test-variant node whose [result.state] is [s]. *)
Definition test_in_state (s : TaskState) (t : RunnerTask) : bool :=
  is_test (type t) && state_is (result t) s.

(** A failed node, a passed node, and the path string of a node. *)
Definition failing (n : list jsstring * RunnerTask) : bool :=
  test_in_state fail (snd n).

Definition passing (n : list jsstring * RunnerTask) : bool :=
  test_in_state pass (snd n).

Definition path_text (n : list jsstring * RunnerTask) : jsstring :=
  join Reporter.path_separator (fst n).

(** Section 4.2: the record of a failed node with ancestry path [p]. *)
Definition failed_record (opts : Reporter.Options)
           (n : list jsstring * RunnerTask) : Reporter.FailedTest :=
  {| Reporter.failed_name := path_text n;
     Reporter.failed_error :=
       match result (snd n) with
       | Some res => Reporter.error_text opts res
       | None => lit "Unknown error"
       end |}.

(** *** Section 4.2 on the error text

    [claimed_error_text] reads the sentence literally: the message when
    there is one, and the fenced stack when there is a stack.
    [amended_error_text] treats an empty message like an absent one and
    an empty stack like an absent one. *)

Definition first_message (res : TaskResult) : option jsstring :=
  match Reporter.first_error res with Some e => message e | None => None end.

Definition first_stack (res : TaskResult) : option jsstring :=
  match Reporter.first_error res with Some e => stack e | None => None end.

(** The stack capped at 800 characters, with the marker when it was
    longer. *)
Definition cap_stack (s : jsstring) : jsstring :=
  if 800 <? strlen s
  then substring0 s 800 ++ Reporter.newline ++ lit "... (truncated)"
  else s.

(** [msg], a newline, and [body] between two fences. *)
Definition fenced (msg body : jsstring) : jsstring :=
  msg ++ Reporter.newline ++ lit "```" ++ Reporter.newline
      ++ body ++ Reporter.newline ++ lit "```".

Definition claimed_error_text (opts : Reporter.Options) (res : TaskResult)
  : jsstring :=
  let msg :=
    match first_message res with
    | Some m => m
    | None => lit "Unknown error"
    end in
  match first_stack res with
  | Some s => if Reporter.includeStackTrace opts then fenced msg (cap_stack s) else msg
  | None => msg
  end.

Definition amended_error_text (opts : Reporter.Options) (res : TaskResult)
  : jsstring :=
  let msg :=
    match first_message res with
    | Some (c :: m) => c :: m
    | _ => lit "Unknown error"
    end in
  match first_stack res with
  | Some (c :: s) =>
      if Reporter.includeStackTrace opts then fenced msg (cap_stack (c :: s)) else msg
  | _ => msg
  end.

(** *** Section 4.4: the size ceilings and the detail messages *)

Definition field_within_limits (f : Discord.APIEmbedField) : bool :=
  (strlen (Discord.field_name f) <=? 256)
  && (strlen (Discord.field_value f) <=? 1024).

(** At most 10 fields, each within 256 and 1024 characters. *)
Definition fields_within_limits (e : Discord.APIEmbed) : bool :=
  match Discord.fields e with
  | Some fs => (List.length fs <=? 10) && forallb field_within_limits fs
  | None => true
  end.

(** A description within 2048 characters, if any. *)
Definition description_within_limit (e : Discord.APIEmbed) : bool :=
  match Discord.description e with
  | Some d => strlen d <=? 2048
  | None => true
  end.

(** The three ceilings together. *)
Definition within_limits (e : Discord.APIEmbed) : bool :=
  fields_within_limits e && description_within_limit e.

(** A JavaScript safe integer, the range in which the embedding of
    numbers is exact. *)
Definition safe_integer (z : Z) : Prop := (Z.abs z <= 2 ^ 53)%Z.

(** [s] unchanged when at most [limit] characters, else its first
    [limit - 3] characters and three dots. *)
Definition cut (limit : nat) (s : jsstring) : jsstring :=
  if limit <? strlen s then firstn (limit - 3) s ++ lit "..." else s.

Definition showing (shown : string) (n : nat) (what : string) : jsstring :=
  lit "Showing " ++ lit shown ++ lit " of " ++ toString (N.of_nat n)
      ++ lit " " ++ lit what ++ lit " tests".

Definition failed_details (records : list Reporter.FailedTest) : Discord.APIEmbed :=
  {| Discord.title := Some (Reporter.cross_mark ++ lit " Failed Tests");
     Discord.color := Some Discord.red;
     Discord.description :=
       if 10 <? List.length records
       then Some (showing "10" (List.length records) "failed")
       else None;
     Discord.fields :=
       Some (map (fun r =>
                    {| Discord.field_name := cut 256 (Reporter.failed_name r);
                       Discord.field_value := cut 1024 (Reporter.failed_error r);
                       Discord.inline := None |})
                 (firstn 10 records));
     Discord.footer := None;
     Discord.timestamp := None |}.

(** The failed-details message, present iff there is a failed record. *)
Definition failed_part (records : list Reporter.FailedTest) : list Discord.APIEmbed :=
  match records with
  | [] => []
  | _ :: _ => [failed_details records]
  end.

Definition passed_body (paths : list jsstring) : jsstring :=
  let joined :=
    join Reporter.newline
         (map (fun p => Reporter.check_mark ++ lit " " ++ p) (firstn 20 paths)) in
  match cut 2048 joined with
  | [] => lit "All tests passed!"
  | c :: body => c :: body
  end.

Definition passed_details (paths : list jsstring) : Discord.APIEmbed :=
  {| Discord.title := Some (Reporter.check_button ++ lit " Passed Tests");
     Discord.color := Some Discord.green;
     Discord.description := Some (passed_body paths);
     Discord.fields := None;
     Discord.footer :=
       if 20 <? List.length paths
       then Some (showing "20" (List.length paths) "passed")
       else None;
     Discord.timestamp := None |}.

(** The passed-details message, present iff the option is on and the
    passed counter is positive. *)
Definition passed_part (opts : Reporter.Options) (stats : Reporter.Stats)
           (paths : list jsstring) : list Discord.APIEmbed :=
  if Reporter.showPassedTests opts && (0 <? Reporter.passed stats)%N
  then [passed_details paths] else [].

(** *** Section 8: truncation *)

Definition identity_within (limit : nat) (f : jsstring -> jsstring) : Prop :=
  forall s, strlen s <= limit -> f s = s.

Definition idempotent (f : jsstring -> jsstring) : Prop :=
  forall s, f (f s) = f s.

(** A string of decimal digits. *)
Definition is_digit (c : N) : bool := ((48 <=? c) && (c <=? 57))%N.

End Spec.

(** ** Concrete runs *)

Module Examples.
Import JS Vitest Reporter.

(** A test node without children. *)
Definition leaf (nm : string) (md : RunMode) (res : option TaskResult) : RunnerTask :=
  mkTask test (lit nm) md res None.

Definition passed_result : TaskResult := mkTaskResult pass None.

Definition failed_with (msg : option jsstring) (stk : option jsstring) : TaskResult :=
  mkTaskResult fail (Some [mkTestError msg stk]).

(** One suite with a passed, a failed and a skipped test (scenario A of
    the specification). *)
Definition scenario : list RunnerTestFile :=
  [ mkFile (lit "math.test.ts")
      (Some [ mkTask suite (lit "add") run None
                (Some [ leaf "adds" run (Some passed_result);
                        leaf "overflows" run
                             (Some (failed_with (Some (lit "expected 3 to be 4"))
                                                (Some (lit "at math.test.ts:7:5"))));
                        leaf "later" skip None ]) ]) ].

(** Twelve failing tests in one file (scenario C). *)
Definition twelve_failures : list RunnerTestFile :=
  [ mkFile (lit "all.test.ts")
      (Some (repeat (leaf "fails" run (Some (failed_with (Some (lit "boom")) None))) 12)) ].

(** A test that failed with [throw new Error()]: the message is the empty
    string. *)
Definition empty_message : TaskResult := failed_with (Some []) None.

Definition empty_message_run : list RunnerTestFile :=
  [ mkFile (lit "a.test.ts") (Some [ leaf "throws" run (Some empty_message) ]) ].

Definition default_options : Options := constructor None.

(** A mention of 2049 characters. *)
Definition long_mention : jsstring := repeat 64%N 2049.

Definition long_mention_options : Options :=
  constructor (Some {| user_webhookUrl := None; user_title := None;
                       user_includeStackTrace := None;
                       user_mentionOnFailure := Some long_mention;
                       user_showPassedTests := None |}).

Definition mention_options : Options :=
  constructor (Some {| user_webhookUrl := None; user_title := None;
                       user_includeStackTrace := Some true;
                       user_mentionOnFailure := Some (lit "@here tests failed");
                       user_showPassedTests := None |}).

Definition iso_instant : jsstring := lit "2026-01-01T00:00:00.000Z".

(** A reporter with a webhook, and one without. *)
Definition hooked : DiscordReporter :=
  onInit default_options (mkCtx scenario)
         (Some (lit "https://discord.com/api/webhooks/1/t")) 1000.

Definition unhooked : DiscordReporter :=
  onInit default_options (mkCtx scenario) None 1000.

(** A delivery function that rejects with a cause, and one that resolves. *)
Definition rejecting (url : jsstring) (embeds : list Discord.APIEmbed)
  : option jsstring := Some (lit "HTTP 500").

Definition resolving (url : jsstring) (embeds : list Discord.APIEmbed)
  : option jsstring := None.

End Examples.

(** ** Variants of trees, counters and options used to compare runs *)

Module Variants.
Import JS Vitest Reporter.

(** The counters of two runs, added bucket by bucket. *)
Definition add_stats (a b : Stats) : Stats :=
  {| passed := passed a + passed b;
     failed := failed a + failed b;
     skipped := skipped a + skipped b;
     total := total a + total b |}.

(** The tree [t] with the [result] and [mode] of every node that is not a
    test reset ([result] absent, [mode] run); tests and the shape of the
    tree are kept. *)
Fixpoint forget_suite (t : RunnerTask) : RunnerTask :=
  match t with
  | mkTask ty nm md res ts =>
      mkTask ty nm
             (if is_test ty then md else run)
             (if is_test ty then res else None)
             (match ts with
              | Some l => Some (map forget_suite l)
              | None => None
              end)
  end.

Definition forget_suite_file (f : RunnerTestFile) : RunnerTestFile :=
  {| file_name := file_name f;
     file_tasks :=
       match file_tasks f with
       | Some l => Some (map forget_suite l)
       | None => None
       end |}.

(** [forget_suite] on a node of the enumeration; the path is kept. *)
Definition forget_suite_node (n : list jsstring * RunnerTask)
  : list jsstring * RunnerTask :=
  (fst n, forget_suite (snd n)).

(** The options [opts] with [includeStackTrace] set to [b]. *)
Definition set_includeStackTrace (b : bool) (opts : Options) : Options :=
  {| webhookUrl := webhookUrl opts; title := title opts;
     includeStackTrace := b;
     mentionOnFailure := mentionOnFailure opts;
     showPassedTests := showPassedTests opts |}.

(** A suite whose own result is a failure (a failed hook) around one passed
    test. *)
Definition failed_hook_run : list RunnerTestFile :=
  [ mkFile (lit "db.test.ts")
      (Some [ mkTask suite (lit "queries") run
                (Some (mkTaskResult fail
                         (Some [mkTestError (Some (lit "beforeAll failed")) None])))
                (Some [ mkTask test (lit "selects") run
                          (Some (mkTaskResult pass None)) None ]) ]) ].

End Variants.

(** ** Proof-side definitions: what one visit of a node does *)

Module Visit.
Import JS Vitest Reporter.

(** The non-recursive part of [countTests]: the effect of one node on the
    counters. *)
Definition count_node (task : RunnerTask) (st : Stats) : Stats :=
  if is_test (type task) then
    let st0 := {| passed := passed st; failed := failed st;
                  skipped := skipped st; total := total st + 1 |} in
    if state_is (result task) pass then
      {| passed := passed st0 + 1; failed := failed st0;
         skipped := skipped st0; total := total st0 |}
    else if state_is (result task) fail then
      {| passed := passed st0; failed := failed st0 + 1;
         skipped := skipped st0; total := total st0 |}
    else if skip_or_todo (mode task) then
      {| passed := passed st0; failed := failed st0;
         skipped := skipped st0 + 1; total := total st0 |}
    else st0
  else st.

Definition count_step (st : Stats) (n : list jsstring * RunnerTask) : Stats :=
  count_node (snd n) st.

Definition zero_stats : Stats :=
  {| passed := 0; failed := 0; skipped := 0; total := 0 |}.

(** The nodes of a task forest whose parent has path [path]. *)
Definition preorder_forest (path : list jsstring) (ts : option (list RunnerTask))
  : list (list jsstring * RunnerTask) :=
  match ts with
  | Some l => flat_map (Spec.preorder path) l
  | None => []
  end.

End Visit.

(** [lia] with the equations of Euclidean division by a constant. *)
Ltac div_lia := Zify.zify; Z.to_euclidean_division_equations; lia.

(** ** Lists and [forEach] *)

Section ForEach.
Variables A B S : Type.

Lemma fold_left_flat_map (f : S -> B -> S) (g : A -> list B) (l : list A) (s : S) :
  fold_left f (flat_map g l) s = fold_left (fun acc a => fold_left f (g a) acc) l s.
Proof.
  revert s. induction l as [|a l IH]; intro s; simpl.
  - reflexivity.
  - rewrite fold_left_app. apply IH.
Qed.

Lemma fold_left_ext_Forall (f g : S -> A -> S) (l : list A) :
  Forall (fun a => forall s, f s a = g s a) l ->
  forall s, fold_left f l s = fold_left g l s.
Proof.
  induction 1 as [|a l Ha _ IH]; intro s; simpl.
  - reflexivity.
  - rewrite Ha. apply IH.
Qed.

(** A [forEach] whose body appends [h a] to the array appends them all,
    in order. *)
Lemma forEach_append (f : A -> list B -> list B) (h : A -> list B) (l : list A) :
  Forall (fun a => forall acc, f a acc = acc ++ h a) l ->
  forall acc, JS.forEach l f acc = acc ++ flat_map h l.
Proof.
  unfold JS.forEach.
  induction 1 as [|a l Ha _ IH]; intro acc; simpl.
  - now rewrite app_nil_r.
  - rewrite Ha, IH. now rewrite <- app_assoc.
Qed.

End ForEach.

(** ** Induction on a task and its sub-tasks *)

Section TaskInduction.
Import Vitest.

Variable P : RunnerTask -> Prop.

Hypothesis step :
  forall ty nm md res ts,
    match ts with Some l => Forall P l | None => True end ->
    P (mkTask ty nm md res ts).

Lemma RunnerTask_nested_ind : forall t, P t.
Proof.
  fix IH 1.
  intros [ty nm md res ts].
  apply step.
  destruct ts as [l|]; [|exact I].
  induction l as [|t l IHl]; constructor.
  - apply IH.
  - exact IHl.
Qed.

End TaskInduction.

(** ** The three walks visit the nodes in pre-order *)

Section Walks.
Import JS Vitest Reporter Visit Spec.

Lemma countTests_preorder (t : RunnerTask) :
  forall path st,
    countTests t st = fold_left count_step (Spec.preorder path t) st.
Proof.
  induction t as [ty nm md res ts IH] using RunnerTask_nested_ind.
  intros path st.
  change (Spec.preorder path (mkTask ty nm md res ts))
    with ((path ++ [nm], mkTask ty nm md res ts)
            :: preorder_forest (path ++ [nm]) ts).
  change (countTests (mkTask ty nm md res ts) st)
    with (match ts with
          | Some l => forEach l countTests (count_node (mkTask ty nm md res ts) st)
          | None => count_node (mkTask ty nm md res ts) st
          end).
  cbn [fold_left]. unfold count_step at 2. cbn [snd].
  destruct ts as [l|]; cbn [preorder_forest fold_left]; [|reflexivity].
  rewrite fold_left_flat_map. unfold forEach.
  apply fold_left_ext_Forall.
  revert IH. apply Forall_impl. intros a Ha s. apply Ha.
Qed.

Lemma calculateStats_preorder (files : list RunnerTestFile) :
  calculateStats files = fold_left count_step (Spec.preorder_files files) zero_stats.
Proof.
  unfold calculateStats, Spec.preorder_files, forEach.
  rewrite fold_left_flat_map.
  apply fold_left_ext_Forall, Forall_forall. intros f _ s.
  destruct (file_tasks f) as [l|]; [|reflexivity].
  rewrite fold_left_flat_map.
  apply fold_left_ext_Forall, Forall_forall. intros t _ s'.
  apply countTests_preorder.
Qed.

Lemma collectFailed_preorder (opts : Options) (t : RunnerTask) :
  forall path acc,
    collectFailed opts t path acc
    = acc ++ map (Spec.failed_record opts) (filter failing (Spec.preorder path t)).
Proof.
  induction t as [ty nm md res ts IH] using RunnerTask_nested_ind.
  intros path acc.
  change (Spec.preorder path (mkTask ty nm md res ts))
    with ((path ++ [nm], mkTask ty nm md res ts)
            :: preorder_forest (path ++ [nm]) ts).
  set (here := path ++ [nm]).
  set (pushed :=
         if is_test ty && state_is res fail then
           match res with
           | Some r =>
               acc ++ [ {| failed_name := join path_separator here;
                           failed_error := error_text opts r |} ]
           | None => acc
           end
         else acc).
  change (collectFailed opts (mkTask ty nm md res ts) path acc)
    with (match ts with
          | Some l => forEach l (fun t => collectFailed opts t here) pushed
          | None => pushed
          end).
  assert (Hpushed :
            pushed = acc ++ map (Spec.failed_record opts)
                                (filter failing [(here, mkTask ty nm md res ts)])).
  { unfold pushed. cbn [filter]. unfold failing, Spec.test_in_state. cbn [snd type result].
    destruct (is_test ty && state_is res fail) eqn:E.
    - destruct res as [r|].
      + reflexivity.
      + rewrite andb_comm in E. discriminate E.
    - cbn [map]. now rewrite app_nil_r. }
  change ((here, mkTask ty nm md res ts) :: preorder_forest here ts)
    with ([(here, mkTask ty nm md res ts)] ++ preorder_forest here ts).
  rewrite filter_app, map_app, app_assoc, <- Hpushed.
  destruct ts as [l|]; cbn [preorder_forest].
  - rewrite (forEach_append (fun t => collectFailed opts t here)
               (fun t => map (Spec.failed_record opts)
                           (filter failing (Spec.preorder here t)))).
    + f_equal. clear. induction l as [|a l IHl]; cbn [flat_map].
      * reflexivity.
      * now rewrite filter_app, map_app, IHl.
    + revert IH. apply Forall_impl. intros a Ha acc'. apply Ha.
  - cbn [filter map]. now rewrite app_nil_r.
Qed.

End Walks.

Section WalksOfFiles.
Import JS Vitest Reporter Visit Spec.

Lemma filter_flat_map {A B : Type} (p : B -> bool) (g : A -> list B) (l : list A) :
  filter p (flat_map g l) = flat_map (fun a => filter p (g a)) l.
Proof.
  induction l as [|a l IH]; cbn [flat_map].
  - reflexivity.
  - now rewrite filter_app, IH.
Qed.

Lemma map_flat_map {A B C : Type} (h : B -> C) (g : A -> list B) (l : list A) :
  map h (flat_map g l) = flat_map (fun a => map h (g a)) l.
Proof.
  induction l as [|a l IH]; cbn [flat_map].
  - reflexivity.
  - now rewrite map_app, IH.
Qed.

Lemma getFailedTests_preorder (opts : Options) (files : list RunnerTestFile) :
  getFailedTests opts files
  = map (Spec.failed_record opts) (filter failing (Spec.preorder_files files)).
Proof.
  unfold getFailedTests, Spec.preorder_files.
  rewrite filter_flat_map, map_flat_map.
  rewrite (forEach_append _
             (fun f => map (Spec.failed_record opts)
                         (filter failing
                            (match file_tasks f with
                             | Some ts => flat_map (Spec.preorder [file_name f]) ts
                             | None => []
                             end)))).
  - reflexivity.
  - apply Forall_forall. intros f _ acc.
    destruct (file_tasks f) as [l|].
    + rewrite filter_flat_map, map_flat_map.
      apply forEach_append, Forall_forall. intros t _ acc'.
      apply collectFailed_preorder.
    + cbn [filter map]. now rewrite app_nil_r.
Qed.

Lemma collectPassed_preorder (t : RunnerTask) :
  forall path acc,
    collectPassed t path acc
    = acc ++ map path_text (filter passing (Spec.preorder path t)).
Proof.
  induction t as [ty nm md res ts IH] using RunnerTask_nested_ind.
  intros path acc.
  change (Spec.preorder path (mkTask ty nm md res ts))
    with ([(path ++ [nm], mkTask ty nm md res ts)]
            ++ preorder_forest (path ++ [nm]) ts).
  set (here := path ++ [nm]).
  set (pushed :=
         if is_test ty && state_is res pass
         then acc ++ [join path_separator here] else acc).
  change (collectPassed (mkTask ty nm md res ts) path acc)
    with (match ts with
          | Some l => forEach l (fun t => collectPassed t here) pushed
          | None => pushed
          end).
  assert (Hpushed :
            pushed = acc ++ map path_text
                                (filter passing [(here, mkTask ty nm md res ts)])).
  { unfold pushed. cbn [filter]. unfold passing, Spec.test_in_state.
    cbn [snd type result].
    destruct (is_test ty && state_is res pass).
    - reflexivity.
    - cbn [map]. now rewrite app_nil_r. }
  rewrite filter_app, map_app, app_assoc, <- Hpushed.
  destruct ts as [l|]; cbn [preorder_forest].
  - rewrite filter_flat_map, map_flat_map.
    apply forEach_append.
    revert IH. apply Forall_impl. intros a Ha acc'. apply Ha.
  - cbn [filter map]. now rewrite app_nil_r.
Qed.

Lemma passedTests_preorder (files : list RunnerTestFile) :
  passedTests files
  = map path_text (filter passing (Spec.preorder_files files)).
Proof.
  unfold passedTests, Spec.preorder_files.
  rewrite filter_flat_map, map_flat_map.
  rewrite (forEach_append _
             (fun f => map path_text
                         (filter passing
                            (match file_tasks f with
                             | Some ts => flat_map (Spec.preorder [file_name f]) ts
                             | None => []
                             end)))).
  - reflexivity.
  - apply Forall_forall. intros f _ acc.
    destruct (file_tasks f) as [l|].
    + rewrite filter_flat_map, map_flat_map.
      apply forEach_append, Forall_forall. intros t _ acc'.
      apply collectPassed_preorder.
    + cbn [filter map]. now rewrite app_nil_r.
Qed.

(** The counters after a run of visits, bucket by bucket. *)
Lemma count_cons (p : RunnerTask -> bool) n nodes :
  Spec.count p (n :: nodes)
  = ((if p (snd n) then 1 else 0) + Spec.count p nodes)%N.
Proof.
  unfold Spec.count. cbn [filter].
  destruct (p (snd n)); cbn [List.length].
  - rewrite Nat2N.inj_succ. lia.
  - lia.
Qed.

Lemma fold_count_step nodes :
  forall st,
    let st' := fold_left count_step nodes st in
    (total st' = total st + Spec.count (fun t => is_test (type t)) nodes
     /\ passed st' = passed st + Spec.count (Spec.in_bucket Spec.Passed) nodes
     /\ failed st' = failed st + Spec.count (Spec.in_bucket Spec.Failed) nodes
     /\ skipped st' = skipped st + Spec.count (Spec.in_bucket Spec.Skipped) nodes)%N.
Proof.
  induction nodes as [|n nodes IH]; intro st; cbn [fold_left].
  - cbv zeta. unfold Spec.count. cbn. repeat split; lia.
  - specialize (IH (count_step st n)). cbv zeta in IH |- *.
    destruct IH as (Ht & Hp & Hf & Hs).
    rewrite Ht, Hp, Hf, Hs, !count_cons.
    unfold count_step, count_node, Spec.in_bucket, Spec.classify.
    destruct n as [p [ty nm md res ts]]. cbn [snd type result mode].
    destruct ty; cbn [is_test];
      [ destruct (state_is res pass); [|destruct (state_is res fail);
          [|destruct (skip_or_todo md)]] | ];
      cbn [total passed failed skipped Spec.Bucket_eqb];
      repeat split; lia.
Qed.

End WalksOfFiles.

(** ** Ancestry paths of the enumerated nodes *)

Section Paths.
Import JS Vitest Reporter Visit Spec.

Lemma preorder_path (t : RunnerTask) :
  forall path n,
    In n (Spec.preorder path t) ->
    exists middle, fst n = path ++ middle ++ [name (snd n)].
Proof.
  induction t as [ty nm md res ts IH] using RunnerTask_nested_ind.
  intros path n.
  change (Spec.preorder path (mkTask ty nm md res ts))
    with ((path ++ [nm], mkTask ty nm md res ts)
            :: preorder_forest (path ++ [nm]) ts).
  intros [<- | Hin].
  - exists []. reflexivity.
  - destruct ts as [l|]; cbn [preorder_forest] in Hin; [|contradiction].
    apply in_flat_map in Hin. destruct Hin as (a & Ha & Hn).
    rewrite Forall_forall in IH.
    destruct (IH a Ha _ _ Hn) as (middle & E).
    exists (nm :: middle). rewrite E, <- app_assoc. reflexivity.
Qed.

Lemma preorder_files_path (files : list RunnerTestFile) n :
  In n (Spec.preorder_files files) ->
  exists f middle,
    In f files /\ fst n = file_name f :: middle ++ [name (snd n)].
Proof.
  unfold Spec.preorder_files. intro Hin.
  apply in_flat_map in Hin. destruct Hin as (f & Hf & Hn).
  destruct (file_tasks f) as [l|]; [|contradiction].
  apply in_flat_map in Hn. destruct Hn as (t & _ & Hn).
  destruct (preorder_path _ _ _ Hn) as (middle & E).
  exists f, middle. split; [exact Hf | exact E].
Qed.

Lemma count_tests_split nodes :
  (Spec.count (fun t => is_test (type t)) nodes
   = Spec.count (Spec.in_bucket Spec.Passed) nodes
     + Spec.count (Spec.in_bucket Spec.Failed) nodes
     + Spec.count (Spec.in_bucket Spec.Skipped) nodes
     + Spec.count (Spec.in_bucket Spec.Unclassified) nodes)%N.
Proof.
  induction nodes as [|n nodes IH].
  - reflexivity.
  - rewrite !count_cons, IH.
    unfold Spec.in_bucket, Spec.classify.
    destruct n as [p [ty nm md res ts]]. cbn [snd type result mode].
    destruct ty; cbn [is_test];
      [ destruct (state_is res pass); [|destruct (state_is res fail);
          [|destruct (skip_or_todo md)]] | ];
      cbn [Spec.Bucket_eqb]; lia.
Qed.

(** Being in a bucket, spelled out on the fields of the node. *)
Lemma in_bucket_spec (t : RunnerTask) :
  (Spec.in_bucket Spec.Passed t
   = is_test (type t) && state_is (result t) pass)
  /\ (Spec.in_bucket Spec.Failed t
      = is_test (type t) && negb (state_is (result t) pass)
        && state_is (result t) fail)
  /\ (Spec.in_bucket Spec.Skipped t
      = is_test (type t) && negb (state_is (result t) pass)
        && negb (state_is (result t) fail) && skip_or_todo (mode t))
  /\ (Spec.in_bucket Spec.Unclassified t
      = is_test (type t) && negb (state_is (result t) pass)
        && negb (state_is (result t) fail) && negb (skip_or_todo (mode t))).
Proof.
  unfold Spec.in_bucket, Spec.classify.
  destruct t as [ty nm md res ts]. cbn [type result mode].
  destruct ty; cbn [is_test andb]; [|repeat split].
  destruct (state_is res pass), (state_is res fail), (skip_or_todo md);
    repeat split.
Qed.

Lemma state_pass_not_fail (r : option TaskResult) :
  state_is r pass = true -> state_is r fail = false.
Proof.
  destruct r as [[s e]|]; [|discriminate]. destruct s; cbn; congruence.
Qed.

Lemma in_bucket_Failed_failing n :
  Spec.in_bucket Spec.Failed (snd n) = Spec.failing n.
Proof.
  destruct (in_bucket_spec (snd n)) as (_ & -> & _).
  unfold Spec.failing, Spec.test_in_state.
  destruct (is_test (type (snd n))); cbn [andb]; [|reflexivity].
  destruct (state_is (result (snd n)) pass) eqn:E; cbn [negb andb].
  - symmetry. now apply state_pass_not_fail.
  - reflexivity.
Qed.

Lemma in_bucket_Passed_passing n :
  Spec.in_bucket Spec.Passed (snd n) = Spec.passing n.
Proof.
  destruct (in_bucket_spec (snd n)) as (-> & _). reflexivity.
Qed.

Lemma count_failed_length nodes :
  Spec.count (Spec.in_bucket Spec.Failed) nodes
  = N.of_nat (List.length (filter Spec.failing nodes)).
Proof.
  unfold Spec.count. do 2 f_equal.
  apply filter_ext. intro n. apply in_bucket_Failed_failing.
Qed.

Lemma count_passed_length nodes :
  Spec.count (Spec.in_bucket Spec.Passed) nodes
  = N.of_nat (List.length (filter Spec.passing nodes)).
Proof.
  unfold Spec.count. do 2 f_equal.
  apply filter_ext. intro n. apply in_bucket_Passed_passing.
Qed.

Lemma calculateStats_counts (files : list RunnerTestFile) :
  let nodes := Spec.preorder_files files in
  let st := calculateStats files in
  total st = Spec.count (fun t => is_test (type t)) nodes
  /\ passed st = Spec.count (Spec.in_bucket Spec.Passed) nodes
  /\ failed st = Spec.count (Spec.in_bucket Spec.Failed) nodes
  /\ skipped st = Spec.count (Spec.in_bucket Spec.Skipped) nodes.
Proof.
  cbv zeta. rewrite calculateStats_preorder.
  destruct (fold_count_step (Spec.preorder_files files) zero_stats)
    as (Ht & Hp & Hf & Hs).
  cbv zeta in Ht, Hp, Hf, Hs. rewrite Ht, Hp, Hf, Hs.
  cbn [zero_stats total passed failed skipped]. repeat split; lia.
Qed.

Lemma failed_count_length opts files :
  failed (calculateStats files) = N.of_nat (List.length (getFailedTests opts files)).
Proof.
  destruct (calculateStats_counts files) as (_ & _ & -> & _).
  rewrite getFailedTests_preorder, length_map. apply count_failed_length.
Qed.

Lemma passed_count_length files :
  passed (calculateStats files) = N.of_nat (List.length (passedTests files)).
Proof.
  destruct (calculateStats_counts files) as (_ & -> & _).
  rewrite passedTests_preorder, length_map. apply count_passed_length.
Qed.

End Paths.

(** ** Printing numbers *)

Section Numbers.
Import JS.

Lemma digits_value_app (a b : jsstring) :
  digits_value (a ++ b)
  = fold_left (fun v c => (10 * v + (c - 48))%N) b (digits_value a).
Proof. unfold digits_value. apply fold_left_app. Qed.

(** With enough fuel the digits produced denote the number, and they are
    digits. *)
Lemma digits_from_spec (fuel : nat) :
  forall n acc,
    (n < 10 ^ N.of_nat fuel)%N ->
    exists ds,
      digits_from fuel n acc = ds ++ acc
      /\ digits_value ds = n
      /\ forallb Spec.is_digit ds = true
      /\ (fuel <> 0%nat -> ds <> []).
Proof.
  induction fuel as [|fuel IH]; intros n acc Hn.
  - exists []. cbn in Hn. repeat split; cbn; try lia; congruence.
  - cbn [digits_from].
    assert (Hmod : (n mod 10 < 10)%N) by (apply N.mod_lt; lia).
    assert (Hdig : Spec.is_digit (digit (n mod 10)) = true).
    { unfold Spec.is_digit, digit.
      apply andb_true_intro; split; apply N.leb_le; div_lia. }
    destruct (N.eqb_spec (n / 10) 0) as [E|E].
    + exists [digit (n mod 10)]. repeat split.
      * unfold digits_value, digit. cbn [fold_left].
        div_lia.
      * cbn [forallb]. now rewrite Hdig.
      * discriminate.
    + destruct (@IH (n / 10)%N (digit (n mod 10) :: acc)) as (ds & E1 & E2 & E3 & _).
      { rewrite Nat2N.inj_succ, N.pow_succ_r' in Hn.
        apply N.Div0.div_lt_upper_bound. exact Hn. }
      exists (ds ++ [digit (n mod 10)]). repeat split.
      * rewrite E1, <- app_assoc. reflexivity.
      * rewrite digits_value_app, E2. cbn [fold_left]. unfold digit.
        div_lia.
      * rewrite forallb_app, E3. cbn [forallb]. now rewrite Hdig.
      * intros _ H. now apply app_eq_nil in H as [_ H].
Qed.

Lemma log2_fuel (n : N) : (n < 10 ^ N.of_nat (S (N.to_nat (N.log2 n))))%N.
Proof.
  rewrite Nat2N.inj_succ, N2Nat.id.
  apply N.lt_le_trans with (2 ^ N.succ (N.log2 n))%N.
  - destruct n as [|p]; [cbn; lia|].
    apply N.log2_spec. lia.
  - apply N.pow_le_mono_l. lia.
Qed.

(** [toString] prints a non-empty string of digits that denotes [n]. *)
Lemma toString_spec (n : N) :
  digits_value (toString n) = n
  /\ forallb Spec.is_digit (toString n) = true
  /\ toString n <> [].
Proof.
  unfold toString.
  destruct (@digits_from_spec (S (N.to_nat (N.log2 n))) n [] (log2_fuel n))
    as (ds & E & Hv & Hd & Hne).
  rewrite E, app_nil_r. repeat split; auto.
Qed.

Lemma digits_from_length (fuel : nat) :
  forall n acc k,
    (n < 10 ^ N.of_nat k)%N -> 1 <= k ->
    List.length (digits_from fuel n acc) <= k + List.length acc.
Proof.
  induction fuel as [|fuel IH]; intros n acc k Hn Hk; cbn [digits_from].
  - lia.
  - destruct (N.eqb_spec (n / 10) 0) as [E|E].
    + cbn [List.length]. lia.
    + destruct k as [|k]; [lia|].
      rewrite Nat2N.inj_succ, N.pow_succ_r' in Hn.
      assert (H10 : (n / 10 < 10 ^ N.of_nat k)%N)
        by (apply N.Div0.div_lt_upper_bound; exact Hn).
      destruct k as [|k].
      * cbn in H10. div_lia.
      * specialize (@IH (n / 10)%N (digit (n mod 10) :: acc) (S k) H10).
        cbn [List.length] in IH. lia.
Qed.

(** A safe integer prints in at most 16 characters. *)
Lemma toString_length (n : N) :
  (n <= 2 ^ 53)%N -> strlen (toString n) <= 16.
Proof.
  intro Hn. unfold strlen, toString.
  pose proof (@digits_from_length (S (N.to_nat (N.log2 n))) n [] 16) as H.
  cbn [List.length] in H. rewrite Nat.add_0_r in H. apply H; [|lia].
  change (2 ^ 53)%N with 9007199254740992%N in Hn.
  change (10 ^ N.of_nat 16)%N with 10000000000000000%N. lia.
Qed.

End Numbers.

Unset Implicit Arguments.

(** ** [(duration / 1000).toFixed(2)] *)

Section Fixed.
Import JS.
Local Open Scope Z_scope.

Lemma round_nearest_even_error (p : Z) :
  -500 <= 1000 * round_nearest_even p 1000 - p <= 500.
Proof.
  unfold round_nearest_even.
  destruct (Z.ltb_spec (2 * (p mod 1000)) 1000);
    [|destruct (Z.ltb_spec 1000 (2 * (p mod 1000)));
      [|destruct (Z.even (p / 1000))]];
    Z.to_euclidean_division_equations; lia.
Qed.

Lemma quot1000_scale (d : Z) :
  0 < d <= 2 ^ 53 ->
  9 <= snd (quot1000 d) <= 62 /\ 1000 * 2 ^ 52 <= d * 2 ^ snd (quot1000 d).
Proof.
  intros [Hd Hd53].
  pose proof (Z.log2_spec d Hd) as [Hlo Hhi].
  assert (Ha0 : 0 <= Z.log2 d) by apply Z.log2_nonneg.
  assert (Ha : Z.log2 d <= 53).
  { change 53 with (Z.log2 (2 ^ 53)). now apply Z.log2_le_mono. }
  unfold quot1000. cbn [snd].
  set (a := Z.log2 d) in *.
  assert (Hscale : 1000 * 2 ^ 52 <= d * 2 ^ (61 - a + 1)).
  { replace (61 - a + 1) with (62 - a) by lia.
    apply Z.le_trans with (2 ^ a * 2 ^ (62 - a)).
    - rewrite <- Z.pow_add_r by lia. replace (a + (62 - a)) with 62 by lia.
      vm_compute. discriminate.
    - apply Z.mul_le_mono_nonneg_r; [apply Z.pow_nonneg; lia | exact Hlo]. }
  assert (Hk : forall k, 0 <= k -> 1000 * 2 ^ 52 <= d * 2 ^ k -> 9 <= k).
  { intros k Hk0 Hk. destruct (Z.le_gt_cases 9 k) as [|Hlt]; [assumption|exfalso].
    assert (2 ^ k <= 2 ^ 8) by (apply Z.pow_le_mono_r; lia).
    assert (d * 2 ^ k <= 2 ^ 53 * 2 ^ 8).
    { apply Z.mul_le_mono_nonneg; try lia; apply Z.pow_nonneg; lia. }
    change (2 ^ 53 * 2 ^ 8) with 2305843009213693952 in *.
    change (1000 * 2 ^ 52) with 4503599627370496000 in *. lia. }
  destruct (Z.leb_spec (1000 * 2 ^ 52) (d * 2 ^ (61 - a))) as [H|H].
  - split; [split; [apply Hk; [lia|exact H] | lia] | exact H].
  - split; [split; [apply Hk; [lia|exact Hscale] | lia] | exact Hscale].
Qed.

Lemma hundredths_accurate (d : Z) :
  0 <= d <= 2 ^ 53 ->
  -5 <= 10 * Z.of_N (hundredths d) - d <= 5.
Proof.
  intros [Hd0 Hd53]. unfold hundredths.
  destruct (Z.eqb_spec d 0) as [->|Hnz]; [cbn; lia|].
  assert (Hd : 0 < d) by lia.
  destruct (quot1000_scale d (conj Hd Hd53)) as [[Hk9 Hk62] Hscale].
  unfold quot1000 in *. cbn [snd] in *.
  set (k := if 1000 * 2 ^ 52 <=? d * 2 ^ (61 - Z.log2 d)
            then 61 - Z.log2 d else 61 - Z.log2 d + 1) in *.
  unfold fixed2_hundredths.
  pose proof (round_nearest_even_error (d * 2 ^ k)) as Hm.
  set (m := round_nearest_even (d * 2 ^ k) 1000) in *.
  assert (HP : 512 <= 2 ^ k).
  { change 512 with (2 ^ 9). apply Z.pow_le_mono_r; lia. }
  rewrite Z.pow_add_r by lia. change (2 ^ 1) with 2.
  set (P := 2 ^ k) in *.
  pose proof (Z.div_mod (200 * m + P) (P * 2) ltac:(lia)) as Hdiv.
  pose proof (Z.mod_pos_bound (200 * m + P) (P * 2) ltac:(lia)) as Hmod.
  set (n := (200 * m + P) / (P * 2)) in *.
  assert (Hn0 : 0 <= n).
  { apply Z.div_pos; nia. }
  rewrite Z2N.id by exact Hn0.
  nia.
Qed.

Lemma hundredths_safe (d : Z) :
  0 <= d <= 2 ^ 53 -> (hundredths d / 100 <= 2 ^ 53)%N.
Proof.
  intro Hd. pose proof (hundredths_accurate d Hd) as Hacc.
  change (2 ^ 53)%N with 9007199254740992%N.
  change (2 ^ 53) with 9007199254740992 in Hd.
  apply N.Div0.div_le_upper_bound. lia.
Qed.

(** The text of a duration has at most 21 characters. *)
Lemma duration_text_length (d : Z) :
  Spec.safe_integer d ->
  (strlen (toFixed2_millis d ++ lit "s") <= 21)%nat.
Proof.
  unfold Spec.safe_integer. intro Hd.
  assert (Habs : 0 <= Z.abs d <= 2 ^ 53) by lia.
  pose proof (@toString_length _ (hundredths_safe _ Habs)) as Hlen.
  unfold strlen, toFixed2_millis, print_fixed2 in *.
  rewrite !length_app. cbn [List.length lit map list_ascii_of_string].
  destruct (d <? 0); cbn [List.length lit map list_ascii_of_string]; lia.
Qed.

End Fixed.

(** ** Truncation *)

Section Truncation.
Import JS Reporter.

Lemma cut_identity (limit : nat) (s : jsstring) :
  strlen s <= limit -> Spec.cut limit s = s.
Proof.
  intro H. unfold Spec.cut.
  destruct (Nat.ltb_spec limit (strlen s)); [lia | reflexivity].
Qed.

Lemma cut_length (limit : nat) (s : jsstring) :
  3 <= limit -> strlen (Spec.cut limit s) <= limit.
Proof.
  intro H. unfold Spec.cut.
  destruct (Nat.ltb_spec limit (strlen s)) as [Hlt|Hle]; [|exact Hle].
  unfold strlen in *. rewrite length_app, length_firstn.
  change (List.length (lit "...")) with 3. lia.
Qed.

Lemma cut_idempotent (limit : nat) (s : jsstring) :
  3 <= limit -> Spec.cut limit (Spec.cut limit s) = Spec.cut limit s.
Proof.
  intro H. apply cut_identity, cut_length, H.
Qed.

Lemma truncate_name_cut s : truncate_name s = Spec.cut 256 s.
Proof. reflexivity. Qed.

Lemma truncate_value_cut s : truncate_value s = Spec.cut 1024 s.
Proof. reflexivity. Qed.

Lemma truncate_description_cut s : truncate_description s = Spec.cut 2048 s.
Proof. reflexivity. Qed.

Lemma truncateStackTrace_identity (maxLength : nat) (s : jsstring) :
  strlen s <= maxLength -> truncateStackTrace s maxLength = s.
Proof.
  intro H. unfold truncateStackTrace.
  destruct (Nat.leb_spec (strlen s) maxLength); [reflexivity | lia].
Qed.

Lemma truncateStackTrace_idempotent (maxLength : nat) (s : jsstring) :
  truncateStackTrace (truncateStackTrace s maxLength) maxLength
  = truncateStackTrace s maxLength.
Proof.
  destruct (Nat.le_gt_cases (strlen s) maxLength) as [Hle|Hgt].
  - now rewrite !(truncateStackTrace_identity maxLength s Hle).
  - unfold truncateStackTrace, substring0, strlen in *.
    destruct (Nat.leb_spec (List.length s) maxLength) as [Hle|_]; [lia|].
    assert (Hlen : List.length (firstn maxLength s) = maxLength)
      by (rewrite length_firstn; lia).
    rewrite length_app, Hlen.
    destruct (Nat.leb_spec (maxLength + List.length truncated_marker) maxLength)
      as [Hbad|_].
    + change (List.length truncated_marker) with 16 in Hbad. lia.
    + rewrite firstn_app, Hlen, Nat.sub_diag, firstn_firstn, Nat.min_id.
      cbn [firstn]. now rewrite app_nil_r.
Qed.

Lemma cap_stack_truncateStackTrace s :
  Spec.cap_stack s = truncateStackTrace s 800.
Proof.
  unfold Spec.cap_stack, truncateStackTrace.
  destruct (Nat.ltb_spec 800 (strlen s)), (Nat.leb_spec (strlen s) 800);
    try lia; reflexivity.
Qed.

(** The code's error text is the amended reading of section 4.2. *)
Lemma error_text_amended opts res :
  error_text opts res = Spec.amended_error_text opts res.
Proof.
  unfold error_text, Spec.amended_error_text, Spec.first_message,
    Spec.first_stack, Spec.fenced.
  rewrite <- cap_stack_truncateStackTrace.
  destruct (first_error res) as [[m st]|]; cbn [Vitest.message Vitest.stack].
  - destruct m as [[|c m]|], st as [[|c' st]|], (includeStackTrace opts);
      reflexivity.
  - destruct (includeStackTrace opts); reflexivity.
Qed.

End Truncation.

(** ** The list of messages *)

Section Messages.
Import JS Vitest Reporter.

Lemma buildFailedTestsEmbed_details (records : list FailedTest) :
  records <> [] ->
  buildFailedTestsEmbed records = Some (Spec.failed_details records).
Proof.
  intro Hne. unfold buildFailedTestsEmbed.
  destruct records as [|r records]; [congruence|].
  unfold Spec.failed_details. cbn [List.length Nat.eqb].
  destruct (10 <? S (List.length records)); reflexivity.
Qed.

Lemma buildPassedTestsEmbed_details (files : list RunnerTestFile) :
  passedTests files <> [] ->
  buildPassedTestsEmbed files = Some (Spec.passed_details (passedTests files)).
Proof.
  intro Hne. unfold buildPassedTestsEmbed.
  destruct (passedTests files) as [|p paths] eqn:E; [congruence|].
  unfold Spec.passed_details, Spec.passed_body.
  rewrite truncate_description_cut. unfold testList, slice0.
  cbn [List.length Nat.eqb].
  set (body := Spec.cut 2048 _).
  destruct body; destruct (20 <? S (List.length paths)); reflexivity.
Qed.

Lemma passed_positive_nonempty (files : list RunnerTestFile) :
  (0 <? passed (calculateStats files))%N = true <-> passedTests files <> [].
Proof.
  rewrite passed_count_length, N.ltb_lt.
  destruct (passedTests files); cbn [List.length]; split; intro H;
    try congruence; lia.
Qed.

(** The messages of a run: the summary, then the failed details if any,
    then the passed details if any. *)
Lemma buildEmbeds_parts opts files duration iso :
  buildEmbeds opts files duration iso
  = summaryEmbed opts (calculateStats files) duration iso
      :: Spec.failed_part (getFailedTests opts files)
      ++ Spec.passed_part opts (calculateStats files) (passedTests files).
Proof.
  unfold buildEmbeds, Spec.passed_part.
  assert (Hfailed :
            (if 0 <? List.length (getFailedTests opts files)
             then push_if_any
                    [summaryEmbed opts (calculateStats files) duration iso]
                    (buildFailedTestsEmbed (getFailedTests opts files))
             else [summaryEmbed opts (calculateStats files) duration iso])
            = summaryEmbed opts (calculateStats files) duration iso
                :: Spec.failed_part (getFailedTests opts files)).
  { destruct (getFailedTests opts files) as [|r records] eqn:E.
    - reflexivity.
    - rewrite buildFailedTestsEmbed_details by discriminate. reflexivity. }
  rewrite Hfailed.
  destruct (showPassedTests opts && (0 <? passed (calculateStats files))%N) eqn:G.
  - apply andb_prop in G as [_ G]. apply passed_positive_nonempty in G.
    rewrite buildPassedTestsEmbed_details by exact G. reflexivity.
  - now rewrite app_nil_r.
Qed.

End Messages.

(** ** The size ceilings *)

Section Ceilings.
Import JS Vitest Reporter.

Lemma counters_below_total (files : list RunnerTestFile) :
  let st := calculateStats files in
  (passed st <= total st /\ failed st <= total st /\ skipped st <= total st)%N.
Proof.
  cbv zeta.
  destruct (calculateStats_counts files) as (Ht & Hp & Hf & Hs).
  rewrite Ht, Hp, Hf, Hs, count_tests_split. repeat split; lia.
Qed.

Lemma field_within_limits_intro (name value : jsstring) (i : option bool) :
  strlen name <= 256 -> strlen value <= 1024 ->
  Spec.field_within_limits
    {| Discord.field_name := name; Discord.field_value := value;
       Discord.inline := i |} = true.
Proof.
  intros Hn Hv. unfold Spec.field_within_limits. cbn [Discord.field_name Discord.field_value].
  apply andb_true_intro; split; apply Nat.leb_le; assumption.
Qed.

Lemma labels_short :
  strlen passed_label <= 256 /\ strlen failed_label <= 256
  /\ strlen skipped_label <= 256 /\ strlen duration_label <= 256
  /\ strlen total_label <= 256.
Proof. repeat split; apply Nat.leb_le; reflexivity. Qed.

Lemma summary_fields_within_limits opts files duration iso :
  (total (calculateStats files) <= 2 ^ 53)%N ->
  Spec.safe_integer duration ->
  Spec.fields_within_limits (summaryEmbed opts (calculateStats files) duration iso)
  = true.
Proof.
  intros Htotal Hduration.
  destruct (counters_below_total files) as (Hp & Hf & Hs). cbv zeta in Hp, Hf, Hs.
  assert (Hcount : forall n, (n <= total (calculateStats files))%N ->
                             strlen (toString n) <= 1024).
  { intros n Hn.
    apply Nat.le_trans with 16; [apply toString_length; lia | lia]. }
  assert (Hd : strlen (toFixed2_millis duration ++ lit "s") <= 1024).
  { apply Nat.le_trans with 21; [now apply duration_text_length | lia]. }
  destruct labels_short as (L1 & L2 & L3 & L4 & L5).
  unfold Spec.fields_within_limits, summaryEmbed.
  cbn [Discord.fields forallb]. unfold summary_field.
  rewrite (field_within_limits_intro _ _ (Some true) L1 (Hcount _ Hp)).
  rewrite (field_within_limits_intro _ _ (Some true) L2 (Hcount _ Hf)).
  rewrite (field_within_limits_intro _ _ (Some true) L3 (Hcount _ Hs)).
  rewrite (field_within_limits_intro _ _ (Some true) L4 Hd).
  rewrite (field_within_limits_intro _ _ (Some true) L5 (Hcount _ (N.le_refl _))).
  reflexivity.
Qed.

(** The description of the summary is within the ceiling unless a mention
    longer than 2048 characters is attached to it. *)
Lemma summary_description_within_limit opts st duration iso :
  Spec.description_within_limit (summaryEmbed opts st duration iso)
  = negb ((0 <? failed st)%N && (2048 <? strlen (mentionOnFailure opts))).
Proof.
  unfold Spec.description_within_limit, summaryEmbed. cbn [Discord.description].
  destruct (0 <? failed st)%N; cbn [andb]; [|reflexivity].
  unfold truthy.
  destruct (mentionOnFailure opts) as [|c m] eqn:E; [reflexivity|].
  rewrite Nat.ltb_antisym, negb_involutive. reflexivity.
Qed.

Lemma strlen_lit (s : string) : strlen (lit s) = String.length s.
Proof.
  unfold strlen, lit. induction s as [|c s IH]; cbn; congruence.
Qed.

Lemma showing_length (shown what : string) (n : nat) :
  (N.of_nat n <= 2 ^ 53)%N ->
  strlen (Spec.showing shown n what)
  <= 35 + String.length shown + String.length what.
Proof.
  intro Hn. pose proof (toString_length Hn) as H.
  pose proof (strlen_lit shown) as Hshown. pose proof (strlen_lit what) as Hwhat.
  unfold Spec.showing, strlen in *.
  rewrite !length_app, Hshown, Hwhat.
  change (List.length (lit "Showing ")) with 8.
  change (List.length (lit " of ")) with 4.
  change (List.length (lit " ")) with 1.
  change (List.length (lit " tests")) with 6.
  lia.
Qed.

Lemma failed_details_within_limits (records : list FailedTest) :
  (N.of_nat (List.length records) <= 2 ^ 53)%N ->
  Spec.within_limits (Spec.failed_details records) = true.
Proof.
  intro Hn.
  unfold Spec.within_limits, Spec.fields_within_limits,
    Spec.description_within_limit, Spec.failed_details.
  cbn [Discord.fields Discord.description].
  apply andb_true_intro; split; [apply andb_true_intro; split|].
  - apply Nat.leb_le. rewrite length_map, length_firstn. lia.
  - apply forallb_forall. intros f Hf.
    apply in_map_iff in Hf as (r & <- & _).
    apply field_within_limits_intro; apply cut_length; lia.
  - destruct (10 <? List.length records); [|reflexivity].
    apply Nat.leb_le.
    etransitivity; [apply showing_length, Hn|]. cbn [String.length]. lia.
Qed.

Lemma passed_details_within_limits (paths : list jsstring) :
  Spec.within_limits (Spec.passed_details paths) = true.
Proof.
  unfold Spec.within_limits, Spec.fields_within_limits,
    Spec.description_within_limit, Spec.passed_details, Spec.passed_body.
  cbn [Discord.fields Discord.description andb].
  apply Nat.leb_le.
  set (joined := join _ _).
  pose proof (cut_length 2048 joined ltac:(lia)) as H.
  destruct (Spec.cut 2048 joined) as [|c body].
  - vm_compute. lia.
  - exact H.
Qed.

Lemma details_within_limits opts files :
  (total (calculateStats files) <= 2 ^ 53)%N ->
  forallb Spec.within_limits
          (Spec.failed_part (getFailedTests opts files)
             ++ Spec.passed_part opts (calculateStats files) (passedTests files))
  = true.
Proof.
  intro Htotal. rewrite forallb_app. apply andb_true_intro; split.
  - destruct (counters_below_total files) as (_ & Hf & _). cbv zeta in Hf.
    rewrite (failed_count_length opts files) in Hf.
    unfold Spec.failed_part.
    destruct (getFailedTests opts files) as [|r records]; [reflexivity|].
    cbn [forallb]. rewrite failed_details_within_limits by lia. reflexivity.
  - unfold Spec.passed_part.
    destruct (showPassedTests opts && (0 <? passed (calculateStats files))%N);
      [|reflexivity].
    cbn [forallb]. now rewrite passed_details_within_limits.
Qed.

Lemma forallb_and_split {A : Type} (p q : A -> bool) (l : list A) :
  forallb (fun a => p a && q a) l = true ->
  forallb p l = true /\ forallb q l = true.
Proof.
  induction l as [|a l IH]; cbn [forallb]; [now split|].
  intro H. apply andb_prop in H as (Ha & Hl). apply andb_prop in Ha as (Hp & Hq).
  destruct (IH Hl) as (IHp & IHq). now rewrite Hp, Hq, IHp, IHq.
Qed.

End Ceilings.

(** * The claims of the specification *)

Section Claims.
Import JS Vitest Reporter.

(** C1, as the specification states it, fails: the summary message
    carries the configured mention unchanged, so a mention of 2049
    characters attached to a run with a failure gives a description
    beyond 2048 characters, although all the numbers are small. *)
Lemma C1_mention_exceeds_ceiling :
  Spec.safe_integer 2500
  /\ (total (calculateStats Examples.scenario) <= 2 ^ 53)%N
  /\ Discord.description
       (summaryEmbed Examples.long_mention_options
                     (calculateStats Examples.scenario) 2500 Examples.iso_instant)
     = Some Examples.long_mention
  /\ strlen Examples.long_mention = 2049
  /\ forallb Spec.within_limits
             (buildEmbeds Examples.long_mention_options Examples.scenario
                          2500 Examples.iso_instant)
     = false.
Proof.
  repeat split; try (vm_compute; reflexivity).
  - unfold Spec.safe_integer. vm_compute. discriminate.
  - vm_compute. discriminate.
Qed.

(** C1 (amended): for every file list and every configuration, with the
    test count and the duration in the safe-integer range, every message of
    [buildEmbeds] has at most 10 fields, with names within 256 and values
    within 1024 characters, and the description of every detail message is
    within 2048 characters; the description of the summary, the configured
    mention unchanged, is within 2048 characters unless [failed > 0] and
    [mentionOnFailure] exceeds 2048 characters, and this is the only way
    for a message to exceed a ceiling. *)
Theorem C1_size_ceilings opts files duration iso :
  (total (calculateStats files) <= 2 ^ 53)%N ->
  Spec.safe_integer duration ->
  let embeds := buildEmbeds opts files duration iso in
  let long_mention_attached :=
    (0 <? failed (calculateStats files))%N
    && (2048 <? strlen (mentionOnFailure opts)) in
  forallb Spec.fields_within_limits embeds = true
  /\ forallb Spec.description_within_limit (tl embeds) = true
  /\ (exists summary,
         hd_error embeds = Some summary
         /\ Spec.description_within_limit summary = negb long_mention_attached)
  /\ forallb Spec.within_limits embeds = negb long_mention_attached.
Proof.
  intros Htotal Hduration. cbv zeta.
  rewrite buildEmbeds_parts. cbn [forallb tl hd_error].
  pose proof (details_within_limits opts files Htotal) as Hdetails.
  destruct (forallb_and_split _ _ _ Hdetails) as (Hdf & Hdd).
  pose proof (summary_fields_within_limits opts files duration iso Htotal Hduration)
    as Hsf.
  pose proof (summary_description_within_limit opts (calculateStats files)
                duration iso) as Hsd.
  split; [|split; [|split]].
  - now rewrite Hsf, Hdf.
  - exact Hdd.
  - eexists. split; [reflexivity | exact Hsd].
  - rewrite Hdetails, andb_true_r. unfold Spec.within_limits.
    now rewrite Hsf, Hsd.
Qed.

Lemma C1_size_ceilings_witness :
  (total (calculateStats Examples.twelve_failures) <= 2 ^ 53)%N
  /\ Spec.safe_integer 2500
  /\ forallb Spec.within_limits
             (buildEmbeds Examples.mention_options Examples.twelve_failures
                          2500 Examples.iso_instant)
     = true.
Proof.
  assert (H1 : (total (calculateStats Examples.twelve_failures) <= 2 ^ 53)%N)
    by (vm_compute; discriminate).
  assert (H2 : Spec.safe_integer 2500)
    by (unfold Spec.safe_integer; vm_compute; discriminate).
  split; [exact H1 | split; [exact H2 |]].
  rewrite (proj2 (proj2 (proj2
             (C1_size_ceilings Examples.mention_options Examples.twelve_failures
                2500 Examples.iso_instant H1 H2)))).
  vm_compute. reflexivity.
Defined.

(** C2: [calculateStats] counts, over the nodes of the file list in
    depth-first pre-order (an absent [tasks] being empty and an absent
    [result] matching no state): [total] is the number of Test nodes;
    each Test node is in exactly one bucket, [passed] when its state is
    pass, else [failed] when its state is fail, else [skipped] when its
    mode is skip or todo, else unclassified; a Suite node is in no
    bucket; and [total = passed + failed + skipped + unclassified]. *)
Theorem C2_calculateStats_counts (files : list RunnerTestFile) :
  let nodes := Spec.preorder_files files in
  let st := calculateStats files in
  (total st = Spec.count (fun t => is_test (type t)) nodes
   /\ passed st = Spec.count (Spec.in_bucket Spec.Passed) nodes
   /\ failed st = Spec.count (Spec.in_bucket Spec.Failed) nodes
   /\ skipped st = Spec.count (Spec.in_bucket Spec.Skipped) nodes
   /\ total st = passed st + failed st + skipped st
                 + Spec.count (Spec.in_bucket Spec.Unclassified) nodes)%N
  /\ forall t : RunnerTask,
      Spec.in_bucket Spec.Passed t
      = is_test (type t) && state_is (result t) pass
      /\ Spec.in_bucket Spec.Failed t
         = is_test (type t) && negb (state_is (result t) pass)
           && state_is (result t) fail
      /\ Spec.in_bucket Spec.Skipped t
         = is_test (type t) && negb (state_is (result t) pass)
           && negb (state_is (result t) fail) && skip_or_todo (mode t)
      /\ Spec.in_bucket Spec.Unclassified t
         = is_test (type t) && negb (state_is (result t) pass)
           && negb (state_is (result t) fail) && negb (skip_or_todo (mode t)).
Proof.
  cbv zeta. split; [|exact in_bucket_spec].
  destruct (calculateStats_counts files) as (Ht & Hp & Hf & Hs).
  cbv zeta in Ht, Hp, Hf, Hs.
  repeat split; try assumption.
  rewrite Ht, Hp, Hf, Hs. apply count_tests_split.
Qed.

Lemma C2_calculateStats_counts_witness :
  calculateStats Examples.scenario
  = {| passed := 1; failed := 1; skipped := 1; total := 3 |}
  /\ Spec.count (Spec.in_bucket Spec.Unclassified)
                (Spec.preorder_files Examples.scenario) = 0%N.
Proof.
  destruct (C2_calculateStats_counts Examples.scenario)
    as ((Ht & Hp & Hf & Hs & Hsum) & _).
  cbv zeta in Ht, Hp, Hf, Hs, Hsum.
  split; [vm_compute; reflexivity|].
  rewrite Hp, Hf, Hs in Hsum.
  assert (E : total (calculateStats Examples.scenario) = 3%N)
    by (vm_compute; reflexivity).
  rewrite E in Hsum. vm_compute. reflexivity.
Defined.

(** C3: [getFailedTests] returns one record per Test node whose state is
    fail, in the pre-order of the nodes over the files in array order;
    the name of a record is the ancestry path of its node joined by
    [" > "], and that path starts with the name of a file of the list
    and ends with the name of the node. *)
Theorem C3_getFailedTests_preorder opts (files : list RunnerTestFile) :
  getFailedTests opts files
  = map (Spec.failed_record opts)
        (filter Spec.failing (Spec.preorder_files files))
  /\ (forall n, failed_name (Spec.failed_record opts n)
                = join (lit " > ") (fst n))
  /\ (forall n, Spec.failing n
                = is_test (type (snd n)) && state_is (result (snd n)) fail)
  /\ forall n, In n (Spec.preorder_files files) ->
               exists f middle,
                 In f files
                 /\ fst n = file_name f :: middle ++ [name (snd n)].
Proof.
  split; [apply getFailedTests_preorder|].
  split; [reflexivity|]. split; [reflexivity|].
  intros n Hn. now apply preorder_files_path.
Qed.

Lemma C3_getFailedTests_preorder_witness :
  map failed_name (getFailedTests Examples.default_options Examples.scenario)
  = [lit "math.test.ts > add > overflows"]
  /\ exists f middle,
      In f Examples.scenario
      /\ [lit "math.test.ts"; lit "add"; lit "overflows"]
         = file_name f :: middle ++ [lit "overflows"].
Proof.
  split.
  - rewrite (proj1 (C3_getFailedTests_preorder Examples.default_options
                      Examples.scenario)).
    vm_compute. reflexivity.
  - apply (proj2 (proj2 (proj2 (C3_getFailedTests_preorder
                                  Examples.default_options Examples.scenario)))
             ([lit "math.test.ts"; lit "add"; lit "overflows"],
              Examples.leaf "overflows" run
                (Some (Examples.failed_with
                         (Some (lit "expected 3 to be 4"))
                         (Some (lit "at math.test.ts:7:5")))))).
    vm_compute. right. right. left. reflexivity.
Defined.

End Claims.

Section ClaimsOnText.
Import JS Vitest Reporter.

(** C4, as the specification states it, fails on a test that failed
    with an empty message ([throw new Error()]): the message is present,
    so the sentence gives the empty string as error text, but the code
    gives ["Unknown error"]. *)
Lemma C4_empty_message_is_unknown_error :
  Spec.first_message Examples.empty_message = Some []
  /\ map failed_error
         (getFailedTests Examples.default_options Examples.empty_message_run)
     = [lit "Unknown error"]
  /\ Spec.claimed_error_text Examples.default_options Examples.empty_message = []
  /\ error_text Examples.default_options Examples.empty_message
     <> Spec.claimed_error_text Examples.default_options Examples.empty_message.
Proof.
  repeat split; try (vm_compute; reflexivity).
  vm_compute. discriminate.
Qed.

(** C4 (amended): for every failed test record, the error text is the
    first error's message, or ["Unknown error"] when the message is
    absent or empty; when [includeStackTrace] is enabled and a non-empty
    stack exists, the error text is that message followed by a fenced
    block holding the stack, cut at 800 characters with
    ["\n... (truncated)"] appended exactly when the stack is longer than
    800 characters, and unchanged otherwise. *)
Theorem C4_error_text opts (files : list RunnerTestFile) :
  (forall res, error_text opts res = Spec.amended_error_text opts res)
  /\ forall r, In r (getFailedTests opts files) ->
               exists n res,
                 In n (Spec.preorder_files files)
                 /\ Spec.failing n = true
                 /\ result (snd n) = Some res
                 /\ failed_error r = Spec.amended_error_text opts res.
Proof.
  split; [apply error_text_amended|].
  intros r Hr. rewrite getFailedTests_preorder in Hr.
  apply in_map_iff in Hr as (n & <- & Hn).
  apply filter_In in Hn as (Hin & Hfail).
  assert (Hres : exists res, result (snd n) = Some res).
  { unfold Spec.failing, Spec.test_in_state in Hfail.
    apply andb_prop in Hfail as (_ & Hstate).
    destruct (result (snd n)) as [res|]; [now exists res | discriminate]. }
  destruct Hres as (res & Hres).
  exists n, res. repeat split; try assumption.
  unfold Spec.failed_record. cbn [failed_error]. rewrite Hres.
  apply error_text_amended.
Qed.

Lemma C4_error_text_witness :
  In {| failed_name := lit "math.test.ts > add > overflows";
        failed_error := lit "expected 3 to be 4" ++ newline ++ lit "```"
                          ++ newline ++ lit "at math.test.ts:7:5"
                          ++ newline ++ lit "```" |}
     (getFailedTests Examples.mention_options Examples.scenario)
  /\ exists n res,
      In n (Spec.preorder_files Examples.scenario)
      /\ Spec.failing n = true
      /\ result (snd n) = Some res
      /\ lit "expected 3 to be 4" ++ newline ++ lit "```"
           ++ newline ++ lit "at math.test.ts:7:5" ++ newline ++ lit "```"
         = Spec.amended_error_text Examples.mention_options res.
Proof.
  assert (H : In {| failed_name := lit "math.test.ts > add > overflows";
                    failed_error := lit "expected 3 to be 4" ++ newline ++ lit "```"
                                      ++ newline ++ lit "at math.test.ts:7:5"
                                      ++ newline ++ lit "```" |}
                 (getFailedTests Examples.mention_options Examples.scenario))
    by (vm_compute; left; reflexivity).
  split; [exact H|].
  exact (proj2 (C4_error_text Examples.mention_options Examples.scenario) _ H).
Defined.

(** C8: each of the four truncations (field name at 256, field value at
    1024, passed-tests body at 2048, stack at 800) leaves a string within
    its limit unchanged, and applied to its own output returns that
    output. *)
Theorem C8_truncation_idempotent :
  (Spec.identity_within 256 truncate_name /\ Spec.idempotent truncate_name)
  /\ (Spec.identity_within 1024 truncate_value /\ Spec.idempotent truncate_value)
  /\ (Spec.identity_within 2048 truncate_description
      /\ Spec.idempotent truncate_description)
  /\ (Spec.identity_within 800 (fun s => truncateStackTrace s 800)
      /\ Spec.idempotent (fun s => truncateStackTrace s 800)).
Proof.
  unfold Spec.identity_within, Spec.idempotent.
  repeat split; intros s; try intros H.
  - rewrite truncate_name_cut. now apply cut_identity.
  - rewrite !truncate_name_cut. apply cut_idempotent. lia.
  - rewrite truncate_value_cut. now apply cut_identity.
  - rewrite !truncate_value_cut. apply cut_idempotent. lia.
  - rewrite truncate_description_cut. now apply cut_identity.
  - rewrite !truncate_description_cut. apply cut_idempotent. lia.
  - now apply truncateStackTrace_identity.
  - apply truncateStackTrace_idempotent.
Qed.

Lemma C8_truncation_idempotent_witness :
  strlen (lit "math.test.ts > add > overflows") <= 256
  /\ truncate_name (lit "math.test.ts > add > overflows")
     = lit "math.test.ts > add > overflows"
  /\ truncateStackTrace (truncateStackTrace (repeat 97%N 801) 800) 800
     = truncateStackTrace (repeat 97%N 801) 800.
Proof.
  assert (H : strlen (lit "math.test.ts > add > overflows") <= 256)
    by (apply Nat.leb_le; reflexivity).
  split; [exact H|]. split.
  - exact (proj1 (proj1 C8_truncation_idempotent) _ H).
  - exact (proj2 (proj2 (proj2 (proj2 C8_truncation_idempotent))) (repeat 97%N 801)).
Defined.

End ClaimsOnText.

Section ClaimsOnMessages.
Import JS Vitest Reporter.

Lemma summary_differs_from_details opts st duration iso records paths :
  summaryEmbed opts st duration iso <> Spec.passed_details paths
  /\ Spec.failed_details records <> Spec.passed_details paths
  /\ (records = [] -> summaryEmbed opts st duration iso <> Spec.failed_details records).
Proof.
  repeat split.
  - intro H. apply (f_equal Discord.fields) in H. discriminate H.
  - intro H. apply (f_equal Discord.fields) in H. discriminate H.
  - intros -> H. apply (f_equal Discord.fields) in H. discriminate H.
Qed.

(** C5: [buildEmbeds] puts the summary first and only detail messages
    after it. The summary is red iff [failed > 0] and green otherwise;
    its five fields are Passed, Failed, Skipped, Duration, Total in this
    order, the counts printed in decimal and the duration as the
    hundredths of a second nearest to [duration / 1000] (within half a
    hundredth), with exactly two digits after the point and an ["s"];
    its description is the configured mention exactly when [failed > 0]
    and the mention is not empty. *)
Theorem C5_summary_message opts files duration iso :
  Spec.safe_integer duration ->
  let st := calculateStats files in
  exists hundredths : N,
    (Z.abs (10 * Z.of_N hundredths - Z.abs duration) <= 5)%Z
    /\ buildEmbeds opts files duration iso
       = {| Discord.title := Some (title opts);
            Discord.color :=
              Some (if (0 <? failed st)%N then Discord.red else Discord.green);
            Discord.description :=
              if (0 <? failed st)%N
                 && negb (Nat.eqb (strlen (mentionOnFailure opts)) 0)
              then Some (mentionOnFailure opts) else None;
            Discord.fields :=
              Some [ {| Discord.field_name := passed_label;
                        Discord.field_value := toString (passed st);
                        Discord.inline := Some true |};
                     {| Discord.field_name := failed_label;
                        Discord.field_value := toString (failed st);
                        Discord.inline := Some true |};
                     {| Discord.field_name := skipped_label;
                        Discord.field_value := toString (skipped st);
                        Discord.inline := Some true |};
                     {| Discord.field_name := duration_label;
                        Discord.field_value :=
                          (if (duration <? 0)%Z then lit "-" else [])
                            ++ toString (hundredths / 100) ++ lit "."
                            ++ [digit (hundredths / 10 mod 10);
                                digit (hundredths mod 10)]
                            ++ lit "s";
                        Discord.inline := Some true |};
                     {| Discord.field_name := total_label;
                        Discord.field_value := toString (total st);
                        Discord.inline := Some true |} ];
            Discord.footer := None;
            Discord.timestamp := Some iso |}
           :: Spec.failed_part (getFailedTests opts files)
           ++ Spec.passed_part opts st (passedTests files)
    /\ (forall n : N,
           digits_value (toString n) = n
           /\ forallb Spec.is_digit (toString n) = true
           /\ toString n <> []).
Proof.
  intros Hsafe. cbv zeta.
  exists (hundredths (Z.abs duration)). split; [|split].
  - unfold Spec.safe_integer in Hsafe.
    pose proof (hundredths_accurate (Z.abs duration)) as H. lia.
  - rewrite buildEmbeds_parts. f_equal.
    unfold summaryEmbed, summary_field, toFixed2_millis, print_fixed2.
    rewrite <- !app_assoc.
    replace (negb (Nat.eqb (strlen (mentionOnFailure opts)) 0))
      with (truthy (mentionOnFailure opts))
      by (destruct (mentionOnFailure opts); reflexivity).
    reflexivity.
  - intro n. apply toString_spec.
Qed.

Lemma C5_summary_message_witness :
  Spec.safe_integer 2500
  /\ exists hundredths : N,
      (Z.abs (10 * Z.of_N hundredths - Z.abs 2500) <= 5)%Z
      /\ hd_error (buildEmbeds Examples.mention_options Examples.scenario
                               2500 Examples.iso_instant)
         = Some {| Discord.title := Some (lit "Test Results");
                   Discord.color := Some Discord.red;
                   Discord.description := Some (lit "@here tests failed");
                   Discord.fields :=
                     Some [ summary_field passed_label (lit "1");
                            summary_field failed_label (lit "1");
                            summary_field skipped_label (lit "1");
                            summary_field duration_label
                              ([] ++ toString (hundredths / 100) ++ lit "."
                                  ++ [digit (hundredths / 10 mod 10);
                                      digit (hundredths mod 10)] ++ lit "s");
                            summary_field total_label (lit "3") ];
                   Discord.footer := None;
                   Discord.timestamp := Some Examples.iso_instant |}.
Proof.
  assert (H : Spec.safe_integer 2500)
    by (unfold Spec.safe_integer; vm_compute; discriminate).
  split; [exact H|].
  destruct (C5_summary_message Examples.mention_options Examples.scenario
              2500 Examples.iso_instant H) as (h & Hacc & Heq & _).
  exists h. split; [exact Hacc|].
  rewrite Heq. reflexivity.
Defined.

End ClaimsOnMessages.

Section ClaimsOnDetails.
Import JS Vitest Reporter.

Lemma ltb_of_nat (a n : nat) :
  (N.of_nat a <? N.of_nat n)%N = (a <? n).
Proof.
  destruct (Nat.ltb_spec a n), (N.ltb_spec (N.of_nat a) (N.of_nat n));
    try reflexivity; lia.
Qed.

(** C6: the messages include the failed-details message iff the failed
    list is not empty, and then it comes right after the summary. Its
    fields are the first [min 10 N] records in traversal order, the name
    cut to 253 characters and three dots when longer than 256, the value
    cut to 1021 characters and three dots when longer than 1024; its
    description is ["Showing 10 of <N> failed tests"] exactly when
    [N > 10]. *)
Theorem C6_failed_details opts files duration iso :
  let records := getFailedTests opts files in
  let embeds := buildEmbeds opts files duration iso in
  (In (Spec.failed_details records) embeds <-> records <> [])
  /\ (records <> [] -> nth_error embeds 1 = Some (Spec.failed_details records))
  /\ records = map (Spec.failed_record opts)
                   (filter Spec.failing (Spec.preorder_files files))
  /\ Discord.fields (Spec.failed_details records)
     = Some (map (fun r =>
                    {| Discord.field_name :=
                         if 256 <? strlen (failed_name r)
                         then firstn 253 (failed_name r) ++ lit "..."
                         else failed_name r;
                       Discord.field_value :=
                         if 1024 <? strlen (failed_error r)
                         then firstn 1021 (failed_error r) ++ lit "..."
                         else failed_error r;
                       Discord.inline := None |})
                 (firstn 10 records))
  /\ List.length (firstn 10 records) = Nat.min 10 (List.length records)
  /\ Discord.description (Spec.failed_details records)
     = if 10 <? List.length records
       then Some (lit "Showing 10 of "
                    ++ toString (N.of_nat (List.length records))
                    ++ lit " failed tests")
       else None.
Proof.
  cbv zeta. rewrite buildEmbeds_parts.
  set (records := getFailedTests opts files).
  set (st := calculateStats files).
  set (paths := passedTests files).
  destruct (summary_differs_from_details opts st duration iso records paths)
    as (Hsp & Hfp & Hsf).
  repeat split.
  - intros Hin Hnil. specialize (Hsf Hnil).
    cbn [In] in Hin. destruct Hin as [E|Hin]; [now apply Hsf|].
    rewrite Hnil in Hin. cbn [Spec.failed_part app] in Hin.
    unfold Spec.passed_part in Hin.
    destruct (showPassedTests opts && (0 <? passed st)%N); cbn [In] in Hin.
    + destruct Hin as [E|[]]. rewrite <- Hnil in E. now apply Hfp.
    + exact Hin.
  - intro Hne. right. unfold Spec.failed_part.
    destruct records; [congruence|]. left. reflexivity.
  - intro Hne. unfold Spec.failed_part.
    destruct records; [congruence|]. reflexivity.
  - apply getFailedTests_preorder.
  - apply length_firstn.
Qed.

Lemma C6_failed_details_witness :
  getFailedTests Examples.default_options Examples.twelve_failures <> []
  /\ In (Spec.failed_details
           (getFailedTests Examples.default_options Examples.twelve_failures))
        (buildEmbeds Examples.default_options Examples.twelve_failures
                     2500 Examples.iso_instant)
  /\ Discord.description
       (Spec.failed_details
          (getFailedTests Examples.default_options Examples.twelve_failures))
     = Some (lit "Showing 10 of 12 failed tests").
Proof.
  assert (H : getFailedTests Examples.default_options Examples.twelve_failures <> [])
    by (vm_compute; discriminate).
  split; [exact H|]. split.
  - exact (proj2 (proj1 (C6_failed_details Examples.default_options
                           Examples.twelve_failures 2500 Examples.iso_instant)) H).
  - vm_compute. reflexivity.
Defined.

(** C7: the messages include the passed-details message iff
    [showPassedTests] is enabled and [passed > 0], and then it comes
    last. Its body is the first 20 passed paths in traversal order, each
    after ["✓ "], joined by newlines, cut to 2045 characters and three
    dots when longer than 2048, with ["All tests passed!"] in place of an
    empty body; its footer is ["Showing 20 of <N> passed tests"] exactly
    when there are more than 20 passed tests. *)
Theorem C7_passed_details opts files duration iso :
  let paths :=
    map Spec.path_text (filter Spec.passing (Spec.preorder_files files)) in
  let embeds := buildEmbeds opts files duration iso in
  let joined :=
    join [10%N] (map (fun p => [0x2713%N] ++ lit " " ++ p) (firstn 20 paths)) in
  let body :=
    if 2048 <? strlen joined then firstn 2045 joined ++ lit "..." else joined in
  (In (Spec.passed_details paths) embeds
   <-> showPassedTests opts = true /\ (0 < passed (calculateStats files))%N)
  /\ (showPassedTests opts = true -> (0 < passed (calculateStats files))%N ->
      last embeds (Spec.passed_details paths) = Spec.passed_details paths
      /\ 2 <= List.length embeds)
  /\ passedTests files = paths
  /\ Discord.description (Spec.passed_details paths)
     = Some (match body with [] => lit "All tests passed!" | _ :: _ => body end)
  /\ Discord.footer (Spec.passed_details paths)
     = if 20 <? List.length paths
       then Some (lit "Showing 20 of " ++ toString (N.of_nat (List.length paths))
                      ++ lit " passed tests")
       else None.
Proof.
  cbv zeta. rewrite buildEmbeds_parts, <- passedTests_preorder.
  set (records := getFailedTests opts files).
  set (st := calculateStats files).
  set (paths := passedTests files).
  destruct (summary_differs_from_details opts st duration iso records paths)
    as (Hsp & Hfp & _).
  assert (Hgate : showPassedTests opts && (0 <? passed st)%N = true
                  <-> showPassedTests opts = true /\ (0 < passed st)%N).
  { rewrite andb_true_iff, N.ltb_lt. reflexivity. }
  repeat split.
  - apply Hgate. unfold Spec.passed_part in H.
    destruct (showPassedTests opts && (0 <? passed st)%N); [reflexivity|].
    rewrite app_nil_r in H. cbn [In] in H. destruct H as [E|H].
    + now apply Hsp in E.
    + unfold Spec.failed_part in H. destruct records; cbn [In] in H.
      * contradiction.
      * destruct H as [E|[]]. now apply Hfp in E.
  - apply Hgate. unfold Spec.passed_part in H.
    destruct (showPassedTests opts && (0 <? passed st)%N); [reflexivity|].
    rewrite app_nil_r in H. cbn [In] in H. destruct H as [E|H].
    + now apply Hsp in E.
    + unfold Spec.failed_part in H. destruct records; cbn [In] in H.
      * contradiction.
      * destruct H as [E|[]]. now apply Hfp in E.
  - intros [Hshow Hpos]. unfold Spec.passed_part.
    rewrite (proj2 Hgate (conj Hshow Hpos)).
    right. apply in_or_app. right. left. reflexivity.
  - unfold Spec.passed_part. rewrite (proj2 Hgate (conj H H0)).
    change (summaryEmbed opts st duration iso
              :: Spec.failed_part records ++ [Spec.passed_details paths])
      with ((summaryEmbed opts st duration iso :: Spec.failed_part records)
              ++ [Spec.passed_details paths]).
    apply last_last.
  - unfold Spec.passed_part. rewrite (proj2 Hgate (conj H H0)).
    cbn [List.length]. rewrite length_app. cbn [List.length]. lia.
  - unfold Spec.passed_details, Spec.passed_body. cbn [Discord.description].
    unfold Spec.cut. change (2048 - 3) with 2045.
    destruct (if 2048 <? strlen _ then _ else _); reflexivity.
Qed.

Lemma C7_passed_details_witness :
  showPassedTests Examples.default_options = true
  /\ (0 < passed (calculateStats Examples.scenario))%N
  /\ In {| Discord.title := Some passed_title;
           Discord.color := Some Discord.green;
           Discord.description :=
             Some (check_mark ++ lit " math.test.ts > add > adds");
           Discord.fields := None;
           Discord.footer := None;
           Discord.timestamp := None |}
        (buildEmbeds Examples.default_options Examples.scenario
                     2500 Examples.iso_instant).
Proof.
  assert (H1 : showPassedTests Examples.default_options = true) by reflexivity.
  assert (H2 : (0 < passed (calculateStats Examples.scenario))%N)
    by (vm_compute; reflexivity).
  split; [exact H1|]. split; [exact H2|].
  exact (proj2 (proj1 (C7_passed_details Examples.default_options
                         Examples.scenario 2500 Examples.iso_instant))
               (conj H1 H2)).
Defined.

End ClaimsOnDetails.

Section ClaimsOnLifecycle.
Import JS Vitest Reporter.

Variable Cause : Type.
Variable sendDiscordMessage : jsstring -> list Discord.APIEmbed -> option Cause.

(** C9: a call of [onFinished] never ends in an exception. Without a
    webhook URL the delivery function is not called and exactly one
    warning is logged; with one, the delivery function is called once,
    and then either it resolves and ["✅ Discord notification sent"] is
    logged, or it rejects and one error is logged whose first argument is
    ["❌ Failed to send Discord notification:"] and whose second is the
    cause. The URL is the configured one, else the environment's. *)
Theorem C9_onFinished_outcomes (this : DiscordReporter)
        (files : option (list RunnerTestFile)) (now : Z) (iso : jsstring) :
  let url := webhookUrl (reporterOptions this) in
  let testFiles :=
    match files with Some fs => fs | None => getFiles (ctx this) end in
  let embeds :=
    buildEmbeds (reporterOptions this) testFiles (now - startTime this) iso in
  run_hook (onFinished sendDiscordMessage this files now iso)
  = match url with
    | [] => ([LoggerWarn no_webhook_message], Returned tt)
    | _ :: _ =>
        match sendDiscordMessage url embeds with
        | None => ([Delivery url embeds; LoggerLog sent_message], Returned tt)
        | Some cause =>
            ([Delivery url embeds; LoggerError send_failed_message cause],
             Returned tt)
        end
    end
  /\ sent_message = [0x2705%N] ++ lit " Discord notification sent"
  /\ send_failed_message
     = [0x274c%N] ++ lit " Failed to send Discord notification:"
  /\ forall opts c env t0,
      webhookUrl (reporterOptions (onInit opts c env t0))
      = match webhookUrl opts, env with
        | [], Some configured => configured
        | [], None => []
        | u :: rl, _ => u :: rl
        end.
Proof.
  cbv zeta. split; [|split; [reflexivity | split; [reflexivity|]]].
  - unfold run_hook, onFinished, try_catch, bind, await_send, emit.
    destruct (webhookUrl (reporterOptions this)) as [|u rl]; cbn [truthy].
    + reflexivity.
    + destruct (sendDiscordMessage (u :: rl) _); reflexivity.
  - intros opts c env t0. unfold onInit. cbn [reporterOptions].
    destruct env as [[|e nv]|], (webhookUrl opts) as [|u rl] eqn:E;
      cbn [truthy negb andb webhookUrl]; try rewrite E; reflexivity.
Qed.

End ClaimsOnLifecycle.

Lemma C9_onFinished_outcomes_witness :
  fst (Reporter.run_hook
         (Reporter.onFinished Examples.rejecting Examples.unhooked None 3500
                              Examples.iso_instant))
  = [Reporter.LoggerWarn Reporter.no_webhook_message]
  /\ Reporter.run_hook
       (Reporter.onFinished Examples.rejecting Examples.hooked None 3500
                            Examples.iso_instant)
     = ([Reporter.Delivery
           (JS.lit "https://discord.com/api/webhooks/1/t")
           (Reporter.buildEmbeds Examples.default_options Examples.scenario
                                 2500 Examples.iso_instant);
         Reporter.LoggerError Reporter.send_failed_message (JS.lit "HTTP 500")],
        Reporter.Returned tt)
  /\ snd (Reporter.run_hook
            (Reporter.onFinished Examples.resolving Examples.hooked None 3500
                                 Examples.iso_instant))
     = Reporter.Returned tt.
Proof.
  rewrite (proj1 (C9_onFinished_outcomes _ Examples.rejecting Examples.unhooked
                    None 3500 Examples.iso_instant)).
  rewrite (proj1 (C9_onFinished_outcomes _ Examples.rejecting Examples.hooked
                    None 3500 Examples.iso_instant)).
  rewrite (proj1 (C9_onFinished_outcomes _ Examples.resolving Examples.hooked
                    None 3500 Examples.iso_instant)).
  repeat split.
Defined.

Section ClaimsOnAgreement.
Import JS Vitest Reporter.

(** C10: the three walks agree. The failed counter is the length of the
    failed list and the passed counter is the number of collected passed
    paths; so the passed-details message, gated on [passed > 0], is built
    exactly when its own list is not empty, and the number in
    ["Showing 10 of <N> failed tests"] is the failed counter. *)
Theorem C10_walks_agree opts (files : list RunnerTestFile) :
  let st := calculateStats files in
  failed st = N.of_nat (List.length (getFailedTests opts files))
  /\ passed st = N.of_nat (List.length (passedTests files))
  /\ ((0 < passed st)%N <-> passedTests files <> [])
  /\ ((0 < passed st)%N <-> buildPassedTestsEmbed files <> None)
  /\ forall e,
      buildFailedTestsEmbed (getFailedTests opts files) = Some e ->
      Discord.description e
      = if (10 <? failed st)%N
        then Some (lit "Showing 10 of " ++ toString (failed st)
                       ++ lit " failed tests")
        else None.
Proof.
  cbv zeta.
  pose proof (failed_count_length opts files) as Hf.
  pose proof (passed_count_length files) as Hp.
  pose proof (passed_positive_nonempty files) as Hpos.
  rewrite N.ltb_lt in Hpos.
  split; [exact Hf|]. split; [exact Hp|]. split; [exact Hpos|]. split.
  - rewrite Hpos. unfold buildPassedTestsEmbed.
    destruct (passedTests files) as [|p paths]; cbn [List.length Nat.eqb].
    + split; intro H; congruence.
    + split; intros _; discriminate.
  - intros e He. rewrite Hf.
    change 10%N with (N.of_nat 10). rewrite ltb_of_nat.
    unfold buildFailedTestsEmbed in He.
    destruct (Nat.eqb (List.length (getFailedTests opts files)) 0); [discriminate|].
    injection He as <-. reflexivity.
Qed.

Lemma C10_walks_agree_witness :
  (0 < passed (calculateStats Examples.scenario))%N
  /\ passedTests Examples.scenario <> []
  /\ exists e,
      buildFailedTestsEmbed
        (getFailedTests Examples.default_options Examples.twelve_failures)
      = Some e
      /\ Discord.description e = Some (lit "Showing 10 of 12 failed tests").
Proof.
  assert (H : (0 < passed (calculateStats Examples.scenario))%N)
    by (vm_compute; reflexivity).
  split; [exact H|]. split.
  - exact (proj1 (proj1 (proj2 (proj2 (C10_walks_agree Examples.default_options
                                          Examples.scenario)))) H).
  - eexists. split; [vm_compute; reflexivity|].
    match goal with
    | |- Discord.description ?e = _ =>
        rewrite (proj2 (proj2 (proj2 (proj2
                   (C10_walks_agree Examples.default_options
                                    Examples.twelve_failures)))) e)
    end; vm_compute; reflexivity.
Defined.

End ClaimsOnAgreement.

(** * Further properties of the reporter *)

Section MoreOnWalks.
Import JS Vitest Reporter.

Lemma stats_eq (a b : Stats) :
  passed a = passed b -> failed a = failed b ->
  skipped a = skipped b -> total a = total b -> a = b.
Proof.
  destruct a, b. cbn. intros -> -> -> ->. reflexivity.
Qed.

Lemma fold_count_step_add nodes st :
  fold_left Visit.count_step nodes st
  = Variants.add_stats st (fold_left Visit.count_step nodes Visit.zero_stats).
Proof.
  destruct (fold_count_step nodes st) as (Ht & Hp & Hf & Hs).
  destruct (fold_count_step nodes Visit.zero_stats) as (Ht0 & Hp0 & Hf0 & Hs0).
  cbv zeta in *.
  apply stats_eq; unfold Variants.add_stats;
    cbn [passed failed skipped total];
    rewrite ?Ht, ?Hp, ?Hf, ?Hs, ?Ht0, ?Hp0, ?Hf0, ?Hs0;
    cbn [Visit.zero_stats passed failed skipped total]; lia.
Qed.

Lemma preorder_files_app (a b : list RunnerTestFile) :
  Spec.preorder_files (a ++ b) = Spec.preorder_files a ++ Spec.preorder_files b.
Proof. unfold Spec.preorder_files. apply flat_map_app. Qed.

Lemma calculateStats_app (a b : list RunnerTestFile) :
  calculateStats (a ++ b)
  = Variants.add_stats (calculateStats a) (calculateStats b).
Proof.
  rewrite !calculateStats_preorder, preorder_files_app, fold_left_app.
  apply fold_count_step_add.
Qed.

Lemma getFailedTests_app opts (a b : list RunnerTestFile) :
  getFailedTests opts (a ++ b) = getFailedTests opts a ++ getFailedTests opts b.
Proof.
  rewrite !getFailedTests_preorder, preorder_files_app, filter_app, map_app.
  reflexivity.
Qed.

Lemma passedTests_app (a b : list RunnerTestFile) :
  passedTests (a ++ b) = passedTests a ++ passedTests b.
Proof.
  rewrite !passedTests_preorder, preorder_files_app, filter_app, map_app.
  reflexivity.
Qed.

(** X1: the three walks distribute over the concatenation of file lists:
    the counters of [a ++ b] are the sums of the counters of [a] and of
    [b], and the failed records and the passed paths of [a ++ b] are those
    of [a] followed by those of [b]. *)
Theorem X1_walks_of_concatenation opts (a b : list RunnerTestFile) :
  calculateStats (a ++ b)
  = Variants.add_stats (calculateStats a) (calculateStats b)
  /\ getFailedTests opts (a ++ b) = getFailedTests opts a ++ getFailedTests opts b
  /\ passedTests (a ++ b) = passedTests a ++ passedTests b.
Proof.
  split; [apply calculateStats_app|].
  split; [apply getFailedTests_app | apply passedTests_app].
Qed.

Lemma add_stats_comm a b : Variants.add_stats a b = Variants.add_stats b a.
Proof.
  apply stats_eq; unfold Variants.add_stats; cbn [passed failed skipped total]; lia.
Qed.

Lemma add_stats_assoc a b c :
  Variants.add_stats a (Variants.add_stats b c)
  = Variants.add_stats (Variants.add_stats a b) c.
Proof.
  apply stats_eq; unfold Variants.add_stats; cbn [passed failed skipped total]; lia.
Qed.

Lemma calculateStats_cons f files :
  calculateStats (f :: files)
  = Variants.add_stats (calculateStats [f]) (calculateStats files).
Proof. apply (calculateStats_app [f] files). Qed.

Lemma calculateStats_Permutation files files' :
  Permutation files files' -> calculateStats files = calculateStats files'.
Proof.
  induction 1 as [|f l l' _ IH|f g l|l l' l'' _ IH1 _ IH2].
  - reflexivity.
  - rewrite (calculateStats_cons f l), (calculateStats_cons f l'), IH. reflexivity.
  - rewrite (calculateStats_cons g (f :: l)), (calculateStats_cons f l),
      (calculateStats_cons f (g :: l)), (calculateStats_cons g l).
    rewrite !add_stats_assoc. f_equal. apply add_stats_comm.
  - now rewrite IH1.
Qed.

(** X2: the counters do not depend on the order of the files: two file
    lists that are permutations of each other give the same counters, as
    many failed records and as many passed paths (the order of the records
    does follow the order of the files). *)
Theorem X2_counters_of_permutation opts files files' :
  Permutation files files' ->
  calculateStats files = calculateStats files'
  /\ List.length (getFailedTests opts files)
     = List.length (getFailedTests opts files')
  /\ List.length (passedTests files) = List.length (passedTests files').
Proof.
  intro HP. pose proof (calculateStats_Permutation files files' HP) as E.
  split; [exact E|]. split.
  - apply Nat2N.inj.
    now rewrite <- !(failed_count_length opts), E.
  - apply Nat2N.inj. now rewrite <- !passed_count_length, E.
Qed.

Lemma X2_counters_of_permutation_witness :
  Permutation (Examples.scenario ++ Examples.twelve_failures)
              (Examples.twelve_failures ++ Examples.scenario)
  /\ calculateStats (Examples.scenario ++ Examples.twelve_failures)
     = calculateStats (Examples.twelve_failures ++ Examples.scenario).
Proof.
  assert (H : Permutation (Examples.scenario ++ Examples.twelve_failures)
                          (Examples.twelve_failures ++ Examples.scenario))
    by apply Permutation_app_comm.
  split; [exact H|].
  exact (proj1 (X2_counters_of_permutation Examples.default_options _ _ H)).
Defined.

Lemma fold_left_of_map {A B S : Type} (f : S -> B -> S) (g : A -> B) (l : list A) :
  forall s, fold_left f (map g l) s = fold_left (fun acc a => f acc (g a)) l s.
Proof.
  induction l as [|a l IH]; intro s; cbn [map fold_left]; [reflexivity | apply IH].
Qed.

Lemma preorder_forget_suite (t : RunnerTask) :
  forall path,
    Spec.preorder path (Variants.forget_suite t)
    = map Variants.forget_suite_node (Spec.preorder path t).
Proof.
  induction t as [ty nm md res ts IH] using RunnerTask_nested_ind.
  intro path.
  cbn [Spec.preorder Variants.forget_suite name tasks map].
  f_equal. destruct ts as [l|]; [|reflexivity].
  induction IH as [|a l Ha _ IHl]; cbn [map flat_map]; [reflexivity|].
  now rewrite map_app, Ha, IHl.
Qed.

Lemma preorder_files_forget_suite (files : list RunnerTestFile) :
  Spec.preorder_files (map Variants.forget_suite_file files)
  = map Variants.forget_suite_node (Spec.preorder_files files).
Proof.
  unfold Spec.preorder_files.
  induction files as [|f files IH]; cbn [map flat_map]; [reflexivity|].
  rewrite map_app, IH. f_equal.
  destruct f as [nm [l|]]; cbn [Variants.forget_suite_file file_tasks file_name];
    [|reflexivity].
  induction l as [|a l IHl]; cbn [map flat_map]; [reflexivity|].
  now rewrite map_app, preorder_forget_suite, IHl.
Qed.

(** What the walks read of a node is kept by [forget_suite]. *)
Lemma forget_suite_node_reads opts n :
  (forall st, Visit.count_step st (Variants.forget_suite_node n)
              = Visit.count_step st n)
  /\ Spec.failing (Variants.forget_suite_node n) = Spec.failing n
  /\ Spec.passing (Variants.forget_suite_node n) = Spec.passing n
  /\ Spec.path_text (Variants.forget_suite_node n) = Spec.path_text n
  /\ (Spec.failing n = true ->
      Spec.failed_record opts (Variants.forget_suite_node n)
      = Spec.failed_record opts n).
Proof.
  destruct n as [p [ty nm md res ts]].
  unfold Variants.forget_suite_node, Visit.count_step, Visit.count_node,
    Spec.failing, Spec.passing, Spec.test_in_state, Spec.path_text,
    Spec.failed_record.
  cbn [fst snd Variants.forget_suite type result mode].
  destruct ty; cbn [is_test andb]; repeat split; intros; try reflexivity.
  discriminate.
Qed.

Lemma walks_forget_suite opts (files : list RunnerTestFile) :
  calculateStats (map Variants.forget_suite_file files) = calculateStats files
  /\ getFailedTests opts (map Variants.forget_suite_file files)
     = getFailedTests opts files
  /\ passedTests (map Variants.forget_suite_file files) = passedTests files.
Proof.
  rewrite !calculateStats_preorder, !getFailedTests_preorder,
    !passedTests_preorder, preorder_files_forget_suite.
  generalize (Spec.preorder_files files) as nodes. intro nodes.
  split; [|split].
  - rewrite fold_left_of_map. apply fold_left_ext_Forall, Forall_forall.
    intros n _ st. apply (forget_suite_node_reads opts n).
  - induction nodes as [|n nodes IH]; cbn [map filter]; [reflexivity|].
    destruct (forget_suite_node_reads opts n) as (_ & Hf & _ & _ & Hr).
    rewrite Hf. destruct (Spec.failing n); [|exact IH].
    cbn [map]. now rewrite IH, Hr.
  - induction nodes as [|n nodes IH]; cbn [map filter]; [reflexivity|].
    destruct (forget_suite_node_reads opts n) as (_ & _ & Hp & Ht & _).
    rewrite Hp. destruct (Spec.passing n); [|exact IH].
    cbn [map]. now rewrite IH, Ht.
Qed.

(** X3: the messages do not depend on the [result] or the [mode] of a
    node that is not a test: resetting them in every suite of the tree
    changes neither the counters, nor the failed records, nor the passed
    paths, nor any message. A failure recorded on a suite itself is
    therefore never reported. *)
Theorem X3_suite_results_ignored opts (files : list RunnerTestFile)
        (duration : Z) (iso : jsstring) :
  calculateStats (map Variants.forget_suite_file files) = calculateStats files
  /\ getFailedTests opts (map Variants.forget_suite_file files)
     = getFailedTests opts files
  /\ buildEmbeds opts (map Variants.forget_suite_file files) duration iso
     = buildEmbeds opts files duration iso.
Proof.
  destruct (walks_forget_suite opts files) as (Hs & Hf & Hp).
  split; [exact Hs|]. split; [exact Hf|].
  rewrite !buildEmbeds_parts. now rewrite Hs, Hf, Hp.
Qed.

Lemma X3_suite_results_ignored_witness :
  failed (calculateStats Variants.failed_hook_run) = 0%N
  /\ getFailedTests Examples.default_options Variants.failed_hook_run = []
  /\ buildEmbeds Examples.default_options
                 (map Variants.forget_suite_file Variants.failed_hook_run)
                 2500 Examples.iso_instant
     = buildEmbeds Examples.default_options Variants.failed_hook_run
                   2500 Examples.iso_instant.
Proof.
  split; [vm_compute; reflexivity|]. split; [vm_compute; reflexivity|].
  exact (proj2 (proj2 (X3_suite_results_ignored Examples.default_options
                         Variants.failed_hook_run 2500 Examples.iso_instant))).
Defined.

End MoreOnWalks.

Section MoreOnText.
Import JS Vitest Reporter.

Lemma join_cons (sep x : jsstring) (l : list jsstring) :
  l <> [] -> join sep (x :: l) = x ++ sep ++ join sep l.
Proof. destruct l; [congruence | reflexivity]. Qed.

Lemma path_text_starts_with_file (files : list RunnerTestFile) n :
  In n (Spec.preorder_files files) ->
  exists f rest,
    In f files /\ Spec.path_text n = file_name f ++ lit " > " ++ rest.
Proof.
  intro Hn. destruct (preorder_files_path files n Hn) as (f & middle & Hf & E).
  exists f, (join path_separator (middle ++ [name (snd n)])).
  split; [exact Hf|].
  unfold Spec.path_text. rewrite E. apply join_cons.
  intro H. now apply app_eq_nil in H as [_ H].
Qed.

(** X4: the name of every failed record, and every passed path, starts
    with the name of a file of the list followed by [" > "]. *)
Theorem X4_names_start_with_file opts (files : list RunnerTestFile) :
  (forall r, In r (getFailedTests opts files) ->
             exists f rest,
               In f files /\ failed_name r = file_name f ++ lit " > " ++ rest)
  /\ (forall p, In p (passedTests files) ->
                exists f rest, In f files /\ p = file_name f ++ lit " > " ++ rest).
Proof.
  split.
  - intros r Hr. rewrite getFailedTests_preorder in Hr.
    apply in_map_iff in Hr as (n & <- & Hn). apply filter_In in Hn as (Hn & _).
    apply (path_text_starts_with_file files n Hn).
  - intros p Hp. rewrite passedTests_preorder in Hp.
    apply in_map_iff in Hp as (n & <- & Hn). apply filter_In in Hn as (Hn & _).
    apply (path_text_starts_with_file files n Hn).
Qed.

Lemma X4_names_start_with_file_witness :
  In (lit "math.test.ts > add > adds") (passedTests Examples.scenario)
  /\ exists f rest,
      In f Examples.scenario
      /\ lit "math.test.ts > add > adds" = file_name f ++ lit " > " ++ rest.
Proof.
  assert (H : In (lit "math.test.ts > add > adds") (passedTests Examples.scenario))
    by (vm_compute; left; reflexivity).
  split; [exact H|].
  exact (proj2 (X4_names_start_with_file Examples.default_options
                  Examples.scenario) _ H).
Defined.

Lemma error_text_with_stack_extends opts res :
  exists suffix,
    error_text (Variants.set_includeStackTrace true opts) res
    = error_text (Variants.set_includeStackTrace false opts) res ++ suffix.
Proof.
  unfold error_text. cbn [Variants.set_includeStackTrace includeStackTrace andb].
  destruct (truthy _).
  - eexists. reflexivity.
  - exists []. now rewrite app_nil_r.
Qed.

(** X5: switching [includeStackTrace] on changes neither the number, nor
    the order, nor the names of the failed records, and only appends to
    their error texts. *)
Theorem X5_stack_trace_only_appends opts (files : list RunnerTestFile) :
  Forall2 (fun without_stack with_stack =>
             failed_name with_stack = failed_name without_stack
             /\ exists suffix,
                 failed_error with_stack = failed_error without_stack ++ suffix)
          (getFailedTests (Variants.set_includeStackTrace false opts) files)
          (getFailedTests (Variants.set_includeStackTrace true opts) files).
Proof.
  rewrite !getFailedTests_preorder.
  induction (filter Spec.failing (Spec.preorder_files files)) as [|n nodes IH];
    cbn [map]; constructor; [|exact IH].
  split; [reflexivity|].
  unfold Spec.failed_record. cbn [failed_error].
  destruct (result (snd n)) as [res|].
  - apply error_text_with_stack_extends.
  - exists []. now rewrite app_nil_r.
Qed.

Lemma truncateStackTrace_length (s : jsstring) (maxLength : nat) :
  strlen (truncateStackTrace s maxLength)
  = if strlen s <=? maxLength then strlen s else maxLength + 16.
Proof.
  unfold truncateStackTrace, substring0, strlen.
  destruct (Nat.leb_spec (List.length s) maxLength) as [Hle|Hgt]; [reflexivity|].
  rewrite length_app, length_firstn.
  change (List.length truncated_marker) with 16. lia.
Qed.

(** X6: [truncateStackTrace] keeps the first [maxLength] characters of the
    stack; its result is the stack itself when that has at most
    [maxLength] characters, and has [maxLength + 16] characters otherwise,
    so it is longer than [maxLength] exactly when the stack was. *)
Theorem X6_truncateStackTrace_length (s : jsstring) (maxLength : nat) :
  firstn maxLength (truncateStackTrace s maxLength) = firstn maxLength s
  /\ strlen (truncateStackTrace s maxLength)
     = (if strlen s <=? maxLength then strlen s else maxLength + 16)
  /\ strlen (truncateStackTrace s maxLength) <= maxLength + 16
  /\ (maxLength <? strlen (truncateStackTrace s maxLength))
     = (maxLength <? strlen s).
Proof.
  pose proof (truncateStackTrace_length s maxLength) as Hlen.
  split; [|split; [exact Hlen|split]].
  - unfold truncateStackTrace, substring0, strlen.
    destruct (Nat.leb_spec (List.length s) maxLength) as [Hle|Hgt]; [reflexivity|].
    rewrite firstn_app, firstn_firstn, Nat.min_id, length_firstn.
    replace (maxLength - Nat.min maxLength (List.length s)) with 0 by lia.
    cbn [firstn]. apply app_nil_r.
  - rewrite Hlen. destruct (Nat.leb_spec (strlen s) maxLength); lia.
  - rewrite Hlen.
    destruct (Nat.leb_spec (strlen s) maxLength) as [Hle|Hgt]; [reflexivity|].
    rewrite (proj2 (Nat.ltb_lt maxLength (maxLength + 16))) by lia.
    symmetry. now apply Nat.ltb_lt.
Qed.

Lemma cut_length_min (limit : nat) (s : jsstring) :
  3 <= limit -> strlen (Spec.cut limit s) = Nat.min (strlen s) limit.
Proof.
  intro H. unfold Spec.cut.
  destruct (Nat.ltb_spec limit (strlen s)) as [Hlt|Hle]; [|lia].
  unfold strlen in *. rewrite length_app, length_firstn.
  change (List.length (lit "...")) with 3. lia.
Qed.

Lemma cut_prefix (limit : nat) (s : jsstring) :
  firstn (limit - 3) (Spec.cut limit s) = firstn (limit - 3) s.
Proof.
  unfold Spec.cut.
  destruct (Nat.ltb_spec limit (strlen s)) as [Hlt|Hle]; [|reflexivity].
  unfold strlen in Hlt.
  rewrite firstn_app, firstn_firstn, Nat.min_id, length_firstn.
  replace (limit - 3 - Nat.min (limit - 3) (List.length s)) with 0 by lia.
  cbn [firstn]. apply app_nil_r.
Qed.

(** X7: the three cuts of the message builder return exactly
    [min (length s) limit] characters (256 for a field name, 1024 for a
    field value, 2048 for the passed-tests description) and keep the first
    [limit - 3] characters of their argument. *)
Theorem X7_cuts_length_and_prefix (s : jsstring) :
  (strlen (truncate_name s) = Nat.min (strlen s) 256
   /\ firstn 253 (truncate_name s) = firstn 253 s)
  /\ (strlen (truncate_value s) = Nat.min (strlen s) 1024
      /\ firstn 1021 (truncate_value s) = firstn 1021 s)
  /\ (strlen (truncate_description s) = Nat.min (strlen s) 2048
      /\ firstn 2045 (truncate_description s) = firstn 2045 s).
Proof.
  rewrite truncate_name_cut, truncate_value_cut, truncate_description_cut.
  repeat split.
  - apply cut_length_min. lia.
  - apply (cut_prefix 256).
  - apply cut_length_min. lia.
  - apply (cut_prefix 1024).
  - apply cut_length_min. lia.
  - apply (cut_prefix 2048).
Qed.

(** X8: the field value of a failed test keeps the whole error text, with
    the closing fence of the stack, whenever the message of the first
    error (or ["Unknown error"] in its place) has at most 199 characters:
    the fenced stack adds at most 825 characters. *)
Theorem X8_short_message_keeps_fence opts (res : TaskResult) :
  strlen (or_else (Spec.first_message res) (lit "Unknown error")) <= 199 ->
  strlen (error_text opts res) <= 1024
  /\ truncate_value (error_text opts res) = error_text opts res.
Proof.
  intro Hmsg.
  assert (Hlen : strlen (error_text opts res) <= 1024).
  { unfold error_text, Spec.first_message in *.
    set (msg := or_else _ (lit "Unknown error")) in *.
    destruct (includeStackTrace opts && truthy _); [|lia].
    pose proof (truncateStackTrace_length
                  (or_else match first_error res with
                           | Some e => stack e
                           | None => None
                           end []) 800) as Ht.
    unfold strlen in *. rewrite !length_app, Ht.
    change (List.length newline) with 1. change (List.length fence) with 3.
    destruct (_ <=? 800) eqn:E; [apply Nat.leb_le in E|]; lia. }
  split; [exact Hlen|].
  rewrite truncate_value_cut. now apply cut_identity.
Qed.

Lemma X8_short_message_keeps_fence_witness :
  strlen (or_else (Spec.first_message
                     (Examples.failed_with (Some (lit "boom"))
                                           (Some (repeat 97%N 5000))))
                  (lit "Unknown error")) <= 199
  /\ truncate_value
       (error_text Examples.mention_options
                   (Examples.failed_with (Some (lit "boom"))
                                         (Some (repeat 97%N 5000))))
     = error_text Examples.mention_options
                  (Examples.failed_with (Some (lit "boom"))
                                        (Some (repeat 97%N 5000))).
Proof.
  assert (H : strlen (or_else (Spec.first_message
                                 (Examples.failed_with (Some (lit "boom"))
                                                       (Some (repeat 97%N 5000))))
                              (lit "Unknown error")) <= 199)
    by (apply Nat.leb_le; reflexivity).
  split; [exact H|].
  exact (proj2 (X8_short_message_keeps_fence Examples.mention_options _ H)).
Defined.

End MoreOnText.

Section MoreOnMessages.
Import JS Vitest Reporter.

Lemma hundredths_nearest (d : Z) :
  (0 <= d <= 2 ^ 53)%Z -> (d mod 10 <> 5)%Z ->
  hundredths d = Z.to_N ((d + 5) / 10).
Proof.
  intros Hd Hmod. pose proof (hundredths_accurate d Hd) as Hacc.
  apply N2Z.inj. rewrite Z2N.id by (apply Z.div_pos; lia).
  revert Hacc Hmod. generalize (Z.of_N (hundredths d)). intros n Hacc Hmod.
  Z.to_euclidean_division_equations. lia.
Qed.

(** X9: for a duration of a safe-integer number of milliseconds whose last
    digit is not 5, the Duration field shows the duration in seconds
    rounded to the nearest hundredth, after a minus sign when the duration
    is negative (a last digit 5 is a tie, which the binary quotient
    decides either way). *)
Theorem X9_duration_rounds_to_nearest opts st (duration : Z) (iso : jsstring) :
  Spec.safe_integer duration ->
  (Z.abs duration mod 10 <> 5)%Z ->
  let nearest := Z.to_N ((Z.abs duration + 5) / 10) in
  exists before after,
    Discord.fields (summaryEmbed opts st duration iso)
    = Some (before
              ++ [ {| Discord.field_name := duration_label;
                      Discord.field_value :=
                        (if (duration <? 0)%Z then lit "-" else [])
                          ++ toString (nearest / 100) ++ lit "."
                          ++ [digit (nearest / 10 mod 10); digit (nearest mod 10)]
                          ++ lit "s";
                      Discord.inline := Some true |} ]
              ++ after)
    /\ List.length before = 3 /\ List.length after = 1.
Proof.
  intros Hsafe Hmod. cbv zeta. unfold Spec.safe_integer in Hsafe.
  eexists [_; _; _], [_]. split; [|split; reflexivity].
  unfold summaryEmbed, summary_field, toFixed2_millis, print_fixed2.
  cbn [Discord.fields app].
  rewrite (hundredths_nearest (Z.abs duration)) by (try exact Hmod; lia).
  rewrite <- !app_assoc. reflexivity.
Qed.

Lemma X9_duration_rounds_to_nearest_witness :
  Spec.safe_integer 123456
  /\ (Z.abs 123456 mod 10 <> 5)%Z
  /\ (exists before after,
         Discord.fields (summaryEmbed Examples.default_options
                                      (calculateStats Examples.scenario)
                                      123456 Examples.iso_instant)
         = Some (before
                   ++ [ {| Discord.field_name := duration_label;
                           Discord.field_value := lit "123.46s";
                           Discord.inline := Some true |} ]
                   ++ after)
         /\ List.length before = 3 /\ List.length after = 1)
  /\ toFixed2_millis 1005 = lit "1.00"
  /\ toFixed2_millis 8345 = lit "8.35"
  /\ toFixed2_millis (-4) = lit "-0.00".
Proof.
  assert (H1 : Spec.safe_integer 123456)
    by (unfold Spec.safe_integer; vm_compute; discriminate).
  assert (H2 : (Z.abs 123456 mod 10 <> 5)%Z) by (vm_compute; discriminate).
  split; [exact H1|]. split; [exact H2|].
  split; [|repeat split; vm_compute; reflexivity].
  exact (X9_duration_rounds_to_nearest Examples.default_options
           (calculateStats Examples.scenario) 123456 Examples.iso_instant H1 H2).
Defined.

Lemma join_starts_with_head (sep x : jsstring) (l : list jsstring) :
  exists rest, join sep (x :: l) = x ++ rest.
Proof.
  destruct l as [|y l].
  - exists []. cbn [join]. now rewrite app_nil_r.
  - eexists. reflexivity.
Qed.

Lemma testList_starts_with_check_mark (p : jsstring) (paths : list jsstring) :
  exists rest, testList (p :: paths) = check_mark ++ lit " " ++ rest.
Proof.
  destruct (join_starts_with_head newline (check_mark ++ lit " " ++ p)
              (map (fun t => check_mark ++ lit " " ++ t) (firstn 19 paths)))
    as (rest & E).
  exists (p ++ rest).
  transitivity ((check_mark ++ lit " " ++ p) ++ rest); [exact E|].
  now rewrite <- !app_assoc.
Qed.

(** X10: the description of the passed-tests message is always the cut
    list of passed paths and starts with ["✓ "]; the replacement text
    ["All tests passed!"] is never used, since the message is only built
    for a non-empty list. *)
Theorem X10_passed_description_is_the_list (files : list RunnerTestFile)
        (e : Discord.APIEmbed) :
  buildPassedTestsEmbed files = Some e ->
  Discord.description e
  = Some (truncate_description (testList (passedTests files)))
  /\ exists rest,
      Discord.description e = Some ([0x2713%N; 32%N] ++ rest).
Proof.
  unfold buildPassedTestsEmbed.
  destruct (passedTests files) as [|p paths]; cbn [List.length Nat.eqb];
    [discriminate|].
  intro H. injection H as <-. cbn [Discord.description].
  destruct (testList_starts_with_check_mark p paths) as (rest & E).
  rewrite E. unfold truncate_description, substring0.
  destruct (2048 <? strlen _).
  - split; [reflexivity|].
    exists (firstn 2043 rest ++ ellipsis). reflexivity.
  - split; [reflexivity|]. exists rest. reflexivity.
Qed.

Lemma X10_passed_description_is_the_list_witness :
  exists e,
    buildPassedTestsEmbed Examples.scenario = Some e
    /\ Discord.description e
       = Some (truncate_description (testList (passedTests Examples.scenario))).
Proof.
  eexists. split; [vm_compute; reflexivity|].
  refine (proj1 (X10_passed_description_is_the_list Examples.scenario _ _)).
  vm_compute. reflexivity.
Defined.

(** X11: [buildEmbeds] returns between one and three messages: the
    summary, then the failed-tests message exactly when [failed > 0], then
    the passed-tests message exactly when [showPassedTests] is set and
    [passed > 0]; so the summary is red exactly when the failed-tests
    message follows it. *)
Theorem X11_messages_by_counters opts (files : list RunnerTestFile)
        (duration : Z) (iso : jsstring) :
  let st := calculateStats files in
  let embeds := buildEmbeds opts files duration iso in
  let failed_message :=
    if (0 <? failed st)%N
    then [Spec.failed_details (getFailedTests opts files)] else [] in
  let passed_message :=
    if showPassedTests opts && (0 <? passed st)%N
    then [Spec.passed_details (passedTests files)] else [] in
  embeds = summaryEmbed opts st duration iso :: failed_message ++ passed_message
  /\ List.length embeds
     = 1 + (if (0 <? failed st)%N then 1 else 0)
         + (if showPassedTests opts && (0 <? passed st)%N then 1 else 0)
  /\ 1 <= List.length embeds <= 3
  /\ Discord.color (summaryEmbed opts st duration iso)
     = Some (if (0 <? failed st)%N then Discord.red else Discord.green).
Proof.
  cbv zeta.
  assert (E : buildEmbeds opts files duration iso
              = summaryEmbed opts (calculateStats files) duration iso
                  :: (if (0 <? failed (calculateStats files))%N
                      then [Spec.failed_details (getFailedTests opts files)]
                      else [])
                  ++ (if showPassedTests opts
                         && (0 <? passed (calculateStats files))%N
                      then [Spec.passed_details (passedTests files)] else [])).
  { rewrite buildEmbeds_parts. unfold Spec.passed_part. do 2 f_equal.
    rewrite (failed_count_length opts files). unfold Spec.failed_part.
    destruct (getFailedTests opts files) as [|r records]; reflexivity. }
  split; [exact E|]. rewrite E.
  split; [|split; [|reflexivity]];
    destruct (0 <? failed (calculateStats files))%N,
             (showPassedTests opts && (0 <? passed (calculateStats files))%N);
    cbn [List.length app Nat.add]; lia.
Qed.

Lemma buildEmbeds_reads_four_options opts opts' files duration iso :
  title opts' = title opts ->
  includeStackTrace opts' = includeStackTrace opts ->
  mentionOnFailure opts' = mentionOnFailure opts ->
  showPassedTests opts' = showPassedTests opts ->
  buildEmbeds opts' files duration iso = buildEmbeds opts files duration iso.
Proof.
  intros Ht Hi Hm Hs.
  assert (Hf : getFailedTests opts' files = getFailedTests opts files).
  { rewrite !getFailedTests_preorder. apply map_ext. intro n.
    unfold Spec.failed_record, error_text. now rewrite Hi. }
  rewrite !buildEmbeds_parts, Hf.
  unfold summaryEmbed, Spec.passed_part. now rewrite Ht, Hm, Hs.
Qed.

End MoreOnMessages.

Section MoreOnLifecycle.
Import JS Vitest Reporter.

Variable Cause : Type.
Variable sendDiscordMessage : jsstring -> list Discord.APIEmbed -> option Cause.

(** X12: for a reporter made by the constructor and [onInit] at time [t0],
    [onFinished] at time [t1] delivers to the configured URL when that is
    not empty and else to the URL of the environment, and warns without
    delivering when both are absent or empty. The payload is built from
    the constructor's options and the duration [t1 - t0]; its first
    message carries a title that is never empty (["Test Results"] when
    none is configured). *)
Theorem X12_configured_run (options : option DiscordReporterOptions)
        (c : VitestCtx) (env : option jsstring) (t0 t1 : Z)
        (files : option (list RunnerTestFile)) (iso : jsstring) :
  let configured :=
    match options with
    | Some o => match user_webhookUrl o with Some u => u | None => [] end
    | None => []
    end in
  let url :=
    match configured, env with
    | [], Some from_env => from_env
    | [], None => []
    | _ :: _, _ => configured
    end in
  let testFiles := match files with Some fs => fs | None => getFiles c end in
  let payload := buildEmbeds (constructor options) testFiles (t1 - t0) iso in
  run_hook (onFinished sendDiscordMessage
                       (onInit (constructor options) c env t0) files t1 iso)
  = match url with
    | [] => ([LoggerWarn no_webhook_message], Returned tt)
    | _ :: _ =>
        match sendDiscordMessage url payload with
        | None => ([Delivery url payload; LoggerLog sent_message], Returned tt)
        | Some cause =>
            ([Delivery url payload; LoggerError send_failed_message cause],
             Returned tt)
        end
    end
  /\ exists summary ch text,
      hd_error payload = Some summary
      /\ Discord.title summary = Some (ch :: text)
      /\ (ch :: text
          = match options with
            | Some o =>
                match user_title o with
                | Some (u :: t) => u :: t
                | _ => lit "Test Results"
                end
            | None => lit "Test Results"
            end).
Proof.
  cbv zeta. split.
  - set (this := onInit (constructor options) c env t0).
    assert (Hpayload :
              buildEmbeds (reporterOptions this)
                          (match files with Some fs => fs | None => getFiles (ctx this) end)
                          (t1 - startTime this) iso
              = buildEmbeds (constructor options)
                            (match files with Some fs => fs | None => getFiles c end)
                            (t1 - t0) iso).
    { unfold this, onInit. cbn [reporterOptions ctx startTime].
      apply buildEmbeds_reads_four_options;
        destruct env as [e|]; try reflexivity;
        destruct (negb (truthy (webhookUrl (constructor options))) && truthy e);
        reflexivity. }
    assert (Hurl :
              webhookUrl (reporterOptions this)
              = match
                  match options with
                  | Some o => match user_webhookUrl o with Some u => u | None => [] end
                  | None => []
                  end, env
                with
                | [], Some from_env => from_env
                | [], None => []
                | u :: rl, _ => u :: rl
                end).
    { unfold this, onInit, constructor. cbn [reporterOptions webhookUrl].
      destruct options as [[[[|u rl]|] ? ? ? ?]|], env as [[|e nv]|];
        reflexivity. }
    unfold run_hook, onFinished, try_catch, bind, await_send, emit.
    rewrite Hpayload, Hurl.
    destruct (match options with
              | Some o => match user_webhookUrl o with Some u => u | None => [] end
              | None => []
              end) as [|u rl], env as [[|e nv]|]; cbn [truthy app];
      try reflexivity;
      match goal with
      | |- context [sendDiscordMessage ?u ?p] =>
          destruct (sendDiscordMessage u p); reflexivity
      end.
  - rewrite buildEmbeds_parts. cbn [hd_error].
    unfold summaryEmbed. cbn [Discord.title]. unfold constructor. cbn [title].
    destruct options as [[? [[|u t]|] ? ? ?]|]; cbn [user_title or_else truthy];
      eexists; eexists; eexists; repeat split; reflexivity.
Qed.

End MoreOnLifecycle.

Lemma X12_configured_run_witness :
  Reporter.run_hook
    (Reporter.onFinished Examples.resolving
       (Reporter.onInit (Reporter.constructor None)
                        (Reporter.mkCtx Examples.scenario)
                        (Some (JS.lit "https://discord.com/api/webhooks/1/t")) 1000)
       None 3500 Examples.iso_instant)
  = ([Reporter.Delivery
        (JS.lit "https://discord.com/api/webhooks/1/t")
        (Reporter.buildEmbeds (Reporter.constructor None) Examples.scenario
                              2500 Examples.iso_instant);
      Reporter.LoggerLog Reporter.sent_message],
     Reporter.Returned tt).
Proof.
  rewrite (proj1 (X12_configured_run _ Examples.resolving None
                    (Reporter.mkCtx Examples.scenario)
                    (Some (JS.lit "https://discord.com/api/webhooks/1/t"))
                    1000 3500 None Examples.iso_instant)).
  reflexivity.
Defined.
